(** * builder.core.env: the build environment of aws-crt-builder

    A shallow embedding of [src/builder/core/env.py]: the class [Env], its
    constructor [Env.__init__], the dict subclass [Variables] and the static
    method [Env._get_git_branch].

    Python strings are Rocq strings (one character per code point below 256),
    [os.environ] and the [Variables] dict are finite maps, [os.path] is
    [posixpath], and the constructor is a computation in a state-and-exception
    monad over the process state (working directory, file system, environment,
    [Project.search_dirs]) that records every call it makes to a collaborator
    living outside this file ([Shell], [Project], [DownloadSource]).  Branch
    detection is a function of the environment and of the outcomes of the
    two calls it makes, to git and, in its handler, to [os.getcwd()].  The
    incoming configuration is a record of the keys the constructor reads;
    [print] calls are not modelled. *)

From Stdlib Require Import String Ascii List Bool Arith Lia.
From stdpp Require Import base option strings gmap.
Import ListNotations.
Open Scope string_scope.

(** ** Python [str] methods used by the module *)

Module PyStr.

(** [s.split(c)] for a one-character separator: never returns the empty
    list, and keeps empty fields. *)
Fixpoint split (c : ascii) (s : string) : list string :=
  match s with
  | EmptyString => [EmptyString]
  | String a r =>
      if Ascii.eqb a c then EmptyString :: split c r
      else match split c r with
           | f :: fs => String a f :: fs
           | [] => [String a EmptyString]
           end
  end.

(** [s.startswith(p)] *)
Definition startswith (s p : string) : bool := String.prefix p s.

(** [s[n:]] *)
Fixpoint drop (n : nat) (s : string) : string :=
  match n, s with
  | O, _ => s
  | S _, EmptyString => EmptyString
  | S k, String _ r => drop k r
  end.

Fixpoint lstrip (p : ascii -> bool) (s : string) : string :=
  match s with
  | EmptyString => EmptyString
  | String a r => if p a then lstrip p r else s
  end.

Fixpoint rstrip (p : ascii -> bool) (s : string) : string :=
  match s with
  | EmptyString => EmptyString
  | String a r =>
      match rstrip p r with
      | EmptyString => if p a then EmptyString else String a EmptyString
      | r' => String a r'
      end
  end.

(** [s.strip(chars)] and [s.strip()], as a predicate on characters. *)
Definition strip_by (p : ascii -> bool) (s : string) : string :=
  rstrip p (lstrip p s).

(** [str.isspace] on code points below 256: TAB..CR, FS..US, space,
    NEL and NBSP. *)
Definition isspace (a : ascii) : bool :=
  let n := nat_of_ascii a in
  (((9 <=? n) && (n <=? 13)) || ((28 <=? n) && (n <=? 32))
   || (n =? 133) || (n =? 160))%nat.

Definition strip (s : string) : string := strip_by isspace s.
Definition strip_chars (chars : string) (s : string) : string :=
  strip_by (fun a => existsb (Ascii.eqb a) (list_ascii_of_string chars)) s.

(** Truth value of a [str]: non-empty. *)
Definition truthy (s : string) : bool :=
  match s with EmptyString => false | _ => true end.

(** [xs[-1]] on a list that [split] produced. *)
Definition last (xs : list string) : string := List.last xs EmptyString.

End PyStr.

(** ** Exceptions *)

(** The exceptions of a run: the three this module can raise itself, and
    whatever a collaborator or the standard library raises, by the name of
    its class. *)
Inductive PyExc :=
| AttributeError (obj attr : string)
| AssertionError
| TypeError
| Propagated (class_name : string).

(** Name of the exception class, as [type(e).__name__] gives it. *)
Definition exc_class (e : PyExc) : string :=
  match e with
  | AttributeError _ _ => "AttributeError"
  | AssertionError => "AssertionError"
  | TypeError => "TypeError"
  | Propagated class_name => class_name
  end.

(** How a call ends: it returns a value or raises. *)
Inductive Result (A : Type) :=
| Ok (a : A)
| Raise (e : PyExc).
Arguments Ok {A} a.
Arguments Raise {A} e.

(** ** [Env._get_git_branch] *)

Definition LF : ascii := Ascii.ascii_of_nat 10.

(** [branch.strip('*').strip()] *)
Definition strip_star (branch : string) : string :=
  PyStr.strip (PyStr.strip_chars "*" branch).

(** First loop of the [try] block: the first line that starts with a star
    decides [star_branch], and the loop breaks there. *)
Fixpoint find_star_branch (lines : list string) : option string :=
  match lines with
  | [] => None
  | branch :: rest =>
      if PyStr.truthy branch && PyStr.startswith branch "*" then
        let star_branch := strip_star branch in
        if String.eqb star_branch "(no branch)" then None else Some star_branch
      else find_star_branch rest
  end.

(** Last loop of the [try] block: the first entry that is not the detached
    head sentinel is returned, without its [remotes/origin/] prefix. *)
Fixpoint first_listed_branch (branches : list string) : option string :=
  match branches with
  | [] => None
  | branch :: rest =>
      if String.eqb branch "(no branch)" then first_listed_branch rest
      else
        let origin_str := "remotes/origin/" in
        if PyStr.startswith branch origin_str
        then Some (PyStr.drop (String.length origin_str) branch)
        else Some branch
  end.

(** The body of the [try] block on the decoded output of
    [git branch -a --contains HEAD]; [None] when it ends without [return]. *)
Definition branch_from_git_output (output : string) : option string :=
  let star_branch := find_star_branch (PyStr.split LF output) in
  let branches :=
    map strip_star (filter (fun b => PyStr.truthy b) (PyStr.split LF output)) in
  match star_branch with
  | Some b => if PyStr.truthy b then Some b else first_listed_branch branches
  | None => first_listed_branch branches
  end.

(** Truth value of [os.environ.get(name)]: [None] and the empty string are
    both false. *)
Definition env_truthy (v : option string) : option string :=
  match v with
  | Some s => if PyStr.truthy s then Some s else None
  | None => None
  end.

(** Lines 153-189: the probe, its handler and the static fallback.
    [git_output] is what [subprocess.check_output([...]).decode("utf-8")]
    produced, [None] when the call or the decoding raised: the bare
    [except:] catches that.  The handler (line 186) builds its message with
    [os.getcwd()], whose outcome is [cwd]: an exception raised there is
    inside no [try] and leaves the method. *)
Definition git_probe_branch (git_output : option string)
    (cwd : Result string) : Result string :=
  match git_output with
  | Some output =>
      match branch_from_git_output output with
      | Some branch => Ok branch
      | None => Ok "main"
      end
  | None =>
      match cwd with
      | Ok _ => Ok "main"
      | Raise e => Raise e
      end
  end.

(** [environ] is [os.environ]; [git_output] and [cwd] are the outcomes of
    the two calls the method makes to the outside, should it reach them. *)
Definition _get_git_branch (environ : gmap string string)
    (git_output : option string) (cwd : Result string) : Result string :=
  let travis_pr_branch := environ !! "TRAVIS_PULL_REQUEST_BRANCH" in
  match env_truthy travis_pr_branch with
  | Some b => Ok b
  | None =>
      let github_head_ref := environ !! "GITHUB_HEAD_REF" in
      let github_ref := environ !! "GITHUB_REF" in
      match env_truthy github_head_ref, env_truthy github_ref with
      | Some branch, _ => Ok branch
      | None, Some ref =>
          let origin_str := "refs/heads/" in
          if PyStr.startswith ref origin_str
          then Ok (PyStr.drop (String.length origin_str) ref)
          else git_probe_branch git_output cwd
      | None, None => git_probe_branch git_output cwd
      end
  end.

(** ** [os.path] on a POSIX host ([posixpath]) *)

Module posixpath.

Definition sep : ascii := "/"%char.

Definition endswith_sep (path : string) : bool :=
  match get (String.length path - 1) path with
  | Some a => Ascii.eqb a sep
  | None => false
  end.

Definition isabs (path : string) : bool := PyStr.startswith path "/".

(** [join(a, *p)] *)
Definition join (a : string) (p : list string) : string :=
  fold_left
    (fun path b =>
       if PyStr.startswith b "/" then b
       else if negb (PyStr.truthy path) || endswith_sep path then path ++ b
       else path ++ "/" ++ b)
    p a.

(** One round of the loop of [normpath] over the components. *)
Definition norm_step (initial_slashes : nat) (new_comps : list string)
    (comp : string) : list string :=
  if String.eqb comp "" || String.eqb comp "." then new_comps
  else if negb (String.eqb comp "..")
          || (Nat.eqb initial_slashes 0 && Nat.eqb (List.length new_comps) 0)
          || (negb (Nat.eqb (List.length new_comps) 0)
              && String.eqb (List.last new_comps "") "..")
  then new_comps ++ [comp]
  else removelast new_comps.

Definition normpath (path : string) : string :=
  if negb (PyStr.truthy path) then "." else
  let initial_slashes : nat :=
    if PyStr.startswith path "/" then
      if PyStr.startswith path "//" && negb (PyStr.startswith path "///")
      then 2 else 1
    else 0 in
  let comps := PyStr.split sep path in
  let new_comps := fold_left (norm_step initial_slashes) comps [] in
  let path := String.concat "/" new_comps in
  let path := String.concat "" (repeat "/" initial_slashes) ++ path in
  if PyStr.truthy path then path else ".".

(** [abspath(path)], with [cwd] the value of [os.getcwd()]. *)
Definition abspath (cwd path : string) : string :=
  if isabs path then normpath path else normpath (join cwd [path]).

End posixpath.

Definition env_of (kvs : list (string * string)) : gmap string string :=
  list_to_map kvs.

(** ** Data *)

(** Values the constructor passes through without looking inside
    ([variant], [spec], [cli_config]) or tests for truth ([args.project]). *)
Inductive pyval :=
| PyNone
| PyStr (s : string)
| PyDict (d : list (string * string)).

Definition pyval_truthy (v : pyval) : bool :=
  match v with
  | PyNone => false
  | PyStr s => PyStr.truthy s
  | PyDict d => negb (Nat.eqb (List.length d) 0)
  end.

(** [builder.core.project.Project], as far as this module reads it: the
    attributes [name] and [path] ([None]: known by name only). *)
Record Project := { name : string; path : option string }.

(** Truth value of [project.path]. *)
Definition path_truthy (p : Project) : bool :=
  match path p with Some s => PyStr.truthy s | None => false end.

(** [builder.core.shell.Shell(dryrun)] *)
Record Shell := { sh_dryrun : bool }.

(** The parsed command line, [config['args']]: an attribute is [None] when
    the namespace does not have it. *)
Record Args := { args_project : option pyval; args_cli_config : option pyval }.

(** The incoming [config] dict, restricted to the keys the constructor
    reads; a field is [None] when the key is not bound ([cfg_branch] and
    [cfg_project] also when it is bound to Python's [None], which
    [getattr(..., None)] does not tell apart).  Lines 32-33 copy every key
    onto the object, so a dict could also rebind what the constructor made
    or is about to make ([variables], [_publish_variable], [launch_dir],
    ...): such a dict is not a [Config], and nothing below is about it. *)
Record Config := {
  cfg_dryrun : option bool;
  cfg_branch : option string;
  cfg_shell : option Shell;
  cfg_project : option Project;
  cfg_args : option Args;
  cfg_variant : option pyval;
  cfg_spec : option pyval
}.

(** The object under construction.  [None] is an attribute that has not
    been set, except [project], where it is also Python's [None]. *)
Record Env := {
  dryrun : bool;
  variables : gmap string string;
  branch : option string;
  shell : option Shell;
  launch_dir : option string;
  project : option Project;
  args : option Args;
  variant : option pyval;
  spec : option pyval;
  config : option (gmap string string);
  root_dir : option string;
  build_dir : option string;
  deps_dir : option string;
  install_dir : option string
}.

(** The process the constructor runs in.  It has a working directory:
    [os.getcwd()], and [os.path.abspath] with it, return. *)
Record Sys := {
  getcwd : string;                  (* os.getcwd() *)
  files : gset string;              (* the paths for which os.path.exists holds *)
  environ : gmap string string;     (* os.environ *)
  platform : string;                (* sys.platform *)
  git_output : option string        (* git branch -a --contains HEAD, decoded *)
}.

(** [os.getcwd()] in such a process. *)
Definition os_getcwd (s : Sys) : Result string := Ok (getcwd s).

(** Calls that leave this module, in the order they are made. *)
Inductive Call :=
| Shell_cwd
| Shell_cd (directory : string)
| Shell_rm (directory : string)
| Shell_mkdir (directory : string)
| Shell_addpathenv (var : string) (directory : string)
| Project_default_project
| Project_find_project (project_name : string) (hints : list string)
| Project_use_variant (v : pyval)
| Project_get_config (spec cli_config : pyval)
| Project_publish_variable (var value : string)
| DownloadSource_run (p : Project) (branch : string) (dest : string).

(** The whole state a run threads: the object, the process,
    [Project.search_dirs] and the calls made so far. *)
Record Machine := {
  self : Env;
  sys : Sys;
  search_dirs : list string;
  calls : list Call
}.

(** What lives outside this file: the effect of each collaborator on the
    process, and what it returns.  [find_project] and [default_project] read
    [Project.search_dirs]; [get_config] is given the variant that
    [use_variant] selected; [download_run] may raise. *)
Record Collaborators := {
  shell_cwd : Shell -> Sys -> string;
  shell_cd : Shell -> string -> Sys -> Sys;
  shell_rm : Shell -> string -> Sys -> Sys;
  shell_mkdir : Shell -> string -> Sys -> Sys;
  shell_addpathenv : Shell -> string -> string -> Sys -> Sys;
  default_project : list string -> Sys -> option Project;
  find_project : list string -> Sys -> string -> list string -> Project;
  resolved : Project -> bool;
  get_config : Project -> pyval -> pyval -> pyval -> Sys -> gmap string string;
  publish_variable : string -> string -> Sys -> Sys;
  download_run : Project -> string -> string -> Sys -> Result Sys
}.

(** ** The state-and-exception monad *)

Definition M (A : Type) : Type := Machine -> Result A * Machine.

Definition ret {A} (a : A) : M A := fun m => (Ok a, m).
Definition raise {A} (e : PyExc) : M A := fun m => (Raise e, m).
Definition bind {A B} (c : M A) (k : A -> M B) : M B :=
  fun m => match c m with
           | (Ok a, m') => k a m'
           | (Raise e, m') => (Raise e, m')
           end.

Declare Scope py_scope.
Delimit Scope py_scope with py.
Notation "x <- c ;; k" := (bind c (fun x => k))
  (at level 100, c at next level, right associativity) : py_scope.
Notation "c ;;; k" := (bind c (fun _ => k))
  (at level 100, right associativity) : py_scope.

(** A call that ends without touching the state. *)
Definition lift {A} (r : Result A) : M A := fun m => (r, m).

Definition get_self : M Env := fun m => (Ok (self m), m).
Definition get_sys : M Sys := fun m => (Ok (sys m), m).
Definition get_search_dirs : M (list string) := fun m => (Ok (search_dirs m), m).

Definition modify_self (f : Env -> Env) : M unit :=
  fun m => (Ok tt, {| self := f (self m); sys := sys m;
                      search_dirs := search_dirs m; calls := calls m |}).
Definition put_search_dirs (ds : list string) : M unit :=
  fun m => (Ok tt, {| self := self m; sys := sys m;
                      search_dirs := ds; calls := calls m |}).

(** A call to a collaborator: logged, then its effect on the process. *)
Definition call (c : Call) (effect : Sys -> Sys) : M unit :=
  fun m => (Ok tt, {| self := self m; sys := effect (sys m);
                      search_dirs := search_dirs m; calls := calls m ++ [c] |}).

(** A call that only returns something: logged, and answered from the
    state it finds. *)
Definition ask {A} (c : Call) (answer : Machine -> A) : M A :=
  fun m => (Ok (answer m),
            {| self := self m; sys := sys m;
               search_dirs := search_dirs m; calls := calls m ++ [c] |}).

(** [self.attr] for an attribute that may be missing. *)
Definition getattr {A} (attr : string) (v : option A) : M A :=
  match v with
  | Some a => ret a
  | None => raise (AttributeError "Env" attr)
  end.

(** Attribute assignment, [self.attr = v]. *)
Definition set_variables (v : gmap string string) (e : Env) : Env :=
  {| dryrun := dryrun e; variables := v; branch := branch e;
     shell := shell e; launch_dir := launch_dir e; project := project e;
     args := args e; variant := variant e; spec := spec e;
     config := config e; root_dir := root_dir e; build_dir := build_dir e;
     deps_dir := deps_dir e; install_dir := install_dir e |}.
Definition set_branch (v : option string) (e : Env) : Env :=
  {| dryrun := dryrun e; variables := variables e; branch := v;
     shell := shell e; launch_dir := launch_dir e; project := project e;
     args := args e; variant := variant e; spec := spec e;
     config := config e; root_dir := root_dir e; build_dir := build_dir e;
     deps_dir := deps_dir e; install_dir := install_dir e |}.
Definition set_shell (v : option Shell) (e : Env) : Env :=
  {| dryrun := dryrun e; variables := variables e; branch := branch e;
     shell := v; launch_dir := launch_dir e; project := project e;
     args := args e; variant := variant e; spec := spec e;
     config := config e; root_dir := root_dir e; build_dir := build_dir e;
     deps_dir := deps_dir e; install_dir := install_dir e |}.
Definition set_launch_dir (v : option string) (e : Env) : Env :=
  {| dryrun := dryrun e; variables := variables e; branch := branch e;
     shell := shell e; launch_dir := v; project := project e;
     args := args e; variant := variant e; spec := spec e;
     config := config e; root_dir := root_dir e; build_dir := build_dir e;
     deps_dir := deps_dir e; install_dir := install_dir e |}.
Definition set_project (v : option Project) (e : Env) : Env :=
  {| dryrun := dryrun e; variables := variables e; branch := branch e;
     shell := shell e; launch_dir := launch_dir e; project := v;
     args := args e; variant := variant e; spec := spec e;
     config := config e; root_dir := root_dir e; build_dir := build_dir e;
     deps_dir := deps_dir e; install_dir := install_dir e |}.
Definition set_config (v : option (gmap string string)) (e : Env) : Env :=
  {| dryrun := dryrun e; variables := variables e; branch := branch e;
     shell := shell e; launch_dir := launch_dir e; project := project e;
     args := args e; variant := variant e; spec := spec e; config := v;
     root_dir := root_dir e; build_dir := build_dir e;
     deps_dir := deps_dir e; install_dir := install_dir e |}.
Definition set_root_dir (v : option string) (e : Env) : Env :=
  {| dryrun := dryrun e; variables := variables e; branch := branch e;
     shell := shell e; launch_dir := launch_dir e; project := project e;
     args := args e; variant := variant e; spec := spec e;
     config := config e; root_dir := v; build_dir := build_dir e;
     deps_dir := deps_dir e; install_dir := install_dir e |}.
Definition set_build_dir (v : option string) (e : Env) : Env :=
  {| dryrun := dryrun e; variables := variables e; branch := branch e;
     shell := shell e; launch_dir := launch_dir e; project := project e;
     args := args e; variant := variant e; spec := spec e;
     config := config e; root_dir := root_dir e; build_dir := v;
     deps_dir := deps_dir e; install_dir := install_dir e |}.
Definition set_deps_dir (v : option string) (e : Env) : Env :=
  {| dryrun := dryrun e; variables := variables e; branch := branch e;
     shell := shell e; launch_dir := launch_dir e; project := project e;
     args := args e; variant := variant e; spec := spec e;
     config := config e; root_dir := root_dir e; build_dir := build_dir e;
     deps_dir := v; install_dir := install_dir e |}.
Definition set_install_dir (v : option string) (e : Env) : Env :=
  {| dryrun := dryrun e; variables := variables e; branch := branch e;
     shell := shell e; launch_dir := launch_dir e; project := project e;
     args := args e; variant := variant e; spec := spec e;
     config := config e; root_dir := root_dir e; build_dir := build_dir e;
     deps_dir := deps_dir e; install_dir := v |}.

(** ** The constructor *)

Section Constructor.

Variable C : Collaborators.

Local Open Scope py_scope.

Definition log (c : Call) (m : Machine) : Machine :=
  {| self := self m; sys := sys m; search_dirs := search_dirs m;
     calls := calls m ++ [c] |}.

(** [Env._publish_variable] hands the pair to [Project._publish_variable]. *)
Definition _publish_variable (var value : string) : M unit :=
  call (Project_publish_variable var value) (publish_variable C var value).

(** [Variables.__setitem__]: [dict.__setitem__], then the hook. *)
Definition Variables_setitem (item value : string) : M unit :=
  modify_self (fun e => set_variables (<[item := value]> (variables e)) e) ;;;
  _publish_variable item value.

(** [os.path.abspath(path)] in the current process. *)
Definition os_path_abspath (path : string) : M string :=
  s <- get_sys ;; ret (posixpath.abspath (getcwd s) path).

Definition self_shell : M Shell :=
  e <- get_self ;; getattr "shell" (shell e).

Definition self_args : M Args :=
  e <- get_self ;; getattr "args" (args e).

(** [self.project.<attr>]: fails on [None]. *)
Definition self_project_dot (attr : string) : M Project :=
  e <- get_self ;;
  match project e with
  | Some p => ret p
  | None => raise (AttributeError "NoneType" attr)
  end.

Definition Project_find (project_name : string) (hints : list string)
    : M Project :=
  ask (Project_find_project project_name hints)
      (fun m => find_project C (search_dirs m) (sys m) project_name hints).

Definition Project_default : M (option Project) :=
  ask Project_default_project
      (fun m => default_project C (search_dirs m) (sys m)).

(** [DownloadSource(project=..., branch=..., path=...).run(self)]; what it
    raises is not caught here. *)
Definition Download (p : Project) (br dest : string) : M unit :=
  fun m =>
    let m' := log (DownloadSource_run p br dest) m in
    match download_run C p br dest (sys m) with
    | Ok s' => (Ok tt, {| self := self m'; sys := s';
                          search_dirs := search_dirs m'; calls := calls m' |})
    | Raise e => (Raise e, m')
    end.

(** [self._get_git_branch()] *)
Definition self_get_git_branch : M string :=
  s <- get_sys ;;
  lift (_get_git_branch (environ s) (git_output s) (os_getcwd s)).

(** The object when line 35 is reached: the default of line 21, the store
    of line 29 and the keys of the configuration. *)
Definition initial_self (config : Config) : Env :=
  {| dryrun := default false (cfg_dryrun config);
     variables := ∅;
     branch := cfg_branch config;
     shell := cfg_shell config;
     launch_dir := None;
     project := cfg_project config;
     args := cfg_args config;
     variant := cfg_variant config;
     spec := cfg_spec config;
     config := None; root_dir := None; build_dir := None;
     deps_dir := None; install_dir := None |}.

Definition empty_config : Config :=
  {| cfg_dryrun := None; cfg_branch := None; cfg_shell := None;
     cfg_project := None; cfg_args := None; cfg_variant := None;
     cfg_spec := None |}.

(** Lines 16-47: defaults, overrides, branch, shell, launch directory and
    the initial search scope. *)
Definition setup (config : option Config) : M unit :=
  let config := default empty_config config in
  modify_self (fun _ => initial_self config) ;;;
  e <- get_self ;;
  b <- match branch e with
       | Some b => if PyStr.truthy b then ret b else self_get_git_branch
       | None => self_get_git_branch
       end ;;
  modify_self (set_branch (Some b)) ;;;
  match shell e with
  | None => modify_self (set_shell (Some {| sh_dryrun := dryrun e |}))
  | Some _ => ret tt
  end ;;;
  sh <- self_shell ;;
  cwd <- ask Shell_cwd (fun m => shell_cwd C sh (sys m)) ;;
  launch <- os_path_abspath cwd ;;
  modify_self (set_launch_dir (Some launch)) ;;;
  put_search_dirs [launch].

(** Lines 56-77: a project named on the command line. *)
Definition locate (project_name : string) : M unit :=
  let parts := PyStr.split posixpath.sep project_name in
  hints <- (if (1 <? List.length parts)%nat then
              match parts with
              | a :: p =>
                  project_path <- os_path_abspath (posixpath.join a p) ;;
                  ret [project_path]
              | [] => raise TypeError
              end
            else ret []) ;;
  let project_name := PyStr.last parts in
  found <- Project_find project_name hints ;;
  found <- (if negb (path_truthy found) then
              e <- get_self ;;
              br <- getattr "branch" (branch e) ;;
              Download found br "." ;;;
              here <- os_path_abspath "." ;;
              again <- Project_find (name found) [here] ;;
              if resolved C again then ret again else raise AssertionError
            else ret found) ;;
  modify_self (set_project (Some found)).

(** Lines 49-77.  A [Project] object is true, as any object without
    [__bool__] or [__len__]; [args.project] is split only if it is a [str]. *)
Definition resolve_project : M unit :=
  e <- get_self ;;
  match project e with
  | Some _ => ret tt
  | None => p <- Project_default ;; modify_self (set_project p)
  end ;;;
  a <- self_args ;;
  requested <- match args_project a with
               | Some v => ret v
               | None => raise (AttributeError "args" "project")
               end ;;
  if pyval_truthy requested then
    match requested with
    | PyStr project_name => locate project_name
    | _ => raise (AttributeError "dict" "split")
    end
  else ret tt.

(** [self.config.get(key, default)] *)
Definition config_get (cfg : gmap string string) (key dflt : string) : string :=
  default dflt (cfg !! key).

(** Lines 104-109: where later steps find the shared libraries. *)
Definition add_library_paths (sh : Shell) (install : string) : M unit :=
  s <- get_sys ;;
  if String.eqb (platform s) "win32" then
    bin <- os_path_abspath (posixpath.join install ["bin"]) ;;
    call (Shell_addpathenv "PATH" bin) (shell_addpathenv C sh "PATH" bin)
  else
    lib64 <- os_path_abspath (posixpath.join install ["lib64"]) ;;
    call (Shell_addpathenv "LD_LIBRARY_PATH" lib64)
         (shell_addpathenv C sh "LD_LIBRARY_PATH" lib64) ;;;
    lib <- os_path_abspath (posixpath.join install ["lib"]) ;;
    call (Shell_addpathenv "LD_LIBRARY_PATH" lib)
         (shell_addpathenv C sh "LD_LIBRARY_PATH" lib).

(** Lines 120-123: [os.path.exists], [shell.rm], [shell.mkdir]. *)
Definition prepare_build_dir (sh : Shell) (build : string) : M unit :=
  s <- get_sys ;;
  (if bool_decide (build ∈ files s)
   then call (Shell_rm build) (shell_rm C sh build)
   else ret tt) ;;;
  call (Shell_mkdir build) (shell_mkdir C sh build).

(** Lines 82-123. *)
Definition build_environment : M unit :=
  p <- self_project_dot "use_variant" ;;
  e <- get_self ;;
  v <- getattr "variant" (variant e) ;;
  call (Project_use_variant v) id ;;;
  p <- self_project_dot "get_config" ;;
  sp <- getattr "spec" (spec e) ;;
  a <- self_args ;;
  cli <- match args_cli_config a with
         | Some c => ret c
         | None => raise (AttributeError "args" "cli_config")
         end ;;
  cfg <- ask (Project_get_config sp cli)
             (fun m => get_config C p v sp cli (sys m)) ;;
  modify_self (set_config (Some cfg)) ;;;
  p <- self_project_dot "path" ;;
  root <- match path p with
          | Some d => os_path_abspath d
          | None => raise TypeError
          end ;;
  modify_self (set_root_dir (Some root)) ;;;
  Variables_setitem "root_dir" root ;;;
  sh <- self_shell ;;
  call (Shell_cd root) (shell_cd C sh root) ;;;
  build <- os_path_abspath
             (config_get cfg "build_dir" (posixpath.join root ["build"])) ;;
  modify_self (set_build_dir (Some build)) ;;;
  Variables_setitem "build_dir" build ;;;
  deps <- os_path_abspath
            (config_get cfg "deps_dir" (posixpath.join build ["deps"])) ;;
  modify_self (set_deps_dir (Some deps)) ;;;
  Variables_setitem "deps_dir" deps ;;;
  install <- os_path_abspath
               (config_get cfg "install_dir" (posixpath.join build ["install"])) ;;
  modify_self (set_install_dir (Some install)) ;;;
  Variables_setitem "install_dir" install ;;;
  add_library_paths sh install ;;;
  ds <- get_search_dirs ;;
  put_search_dirs (ds ++ [build; root; deps]) ;;;
  prepare_build_dir sh build.

(** Line 79: [not self.project or not self.project.resolved()]. *)
Definition nothing_to_build (e : Env) : bool :=
  match project e with
  | Some p => negb (resolved C p)
  | None => true
  end.

(** Lines 16-77: everything up to the resolution of the project. *)
Definition resolution (config : option Config) : M unit :=
  setup config ;;; resolve_project.

(** [Env.__init__(self, config=None)] *)
Definition Env_init (config : option Config) : M unit :=
  resolution config ;;;
  e <- get_self ;;
  if nothing_to_build e then ret tt else build_environment.

End Constructor.

(** ** A sample host, to run the constructor on concrete inputs

    Stand-ins for the collaborators, so that runs compute: a shell that
    works on the sample process (and does nothing to the disk under dry
    run), projects that live in directories holding a [builder.json], a
    project configuration that is the command-line overrides alone, a
    downloader that drops the project under its destination.  The theorems
    below hold for any collaborators; only the examples use these. *)

Module Sample.

Definition with_cwd (d : string) (s : Sys) : Sys :=
  {| getcwd := d; files := files s; environ := environ s;
     platform := platform s; git_output := git_output s |}.
Definition with_files (fs : gset string) (s : Sys) : Sys :=
  {| getcwd := getcwd s; files := fs; environ := environ s;
     platform := platform s; git_output := git_output s |}.
Definition with_environ (ev : gmap string string) (s : Sys) : Sys :=
  {| getcwd := getcwd s; files := files s; environ := ev;
     platform := platform s; git_output := git_output s |}.

(** A directory holds a project when it has a [builder.json]. *)
Definition holds_project (s : Sys) (d : string) : bool :=
  bool_decide (posixpath.join d ["builder.json"] ∈ files s).

Definition basename (d : string) : string :=
  PyStr.last (PyStr.split posixpath.sep d).

Fixpoint search (s : Sys) (project_name : string) (dirs : list string)
    : option string :=
  match dirs with
  | [] => None
  | d :: rest =>
      if String.eqb (basename d) project_name && holds_project s d
      then Some d
      else if holds_project s (posixpath.join d [project_name])
      then Some (posixpath.join d [project_name])
      else search s project_name rest
  end.

Definition host : Collaborators :=
  {| shell_cwd := fun _ s => getcwd s;
     shell_cd := fun _ d s => with_cwd d s;
     shell_rm := fun sh d s =>
       if sh_dryrun sh then s else with_files (files s ∖ {[d]}) s;
     shell_mkdir := fun sh d s =>
       if sh_dryrun sh then s else with_files (files s ∪ {[d]}) s;
     shell_addpathenv := fun _ var d s =>
       with_environ
         (<[var := match environ s !! var with
                   | Some old => d ++ ":" ++ old
                   | None => d
                   end]> (environ s)) s;
     default_project := fun _ s =>
       if holds_project s (getcwd s)
       then Some {| name := basename (getcwd s); path := Some (getcwd s) |}
       else None;
     find_project := fun dirs s project_name hints =>
       {| name := project_name;
          path := search s project_name (hints ++ dirs) |};
     resolved := fun p => bool_decide (is_Some (path p));
     get_config := fun _ _ _ cli _ =>
       match cli with PyDict d => list_to_map d | _ => ∅ end;
     publish_variable := fun _ _ s => s;
     download_run := fun p _ dest s =>
       let d := posixpath.abspath (getcwd s) (posixpath.join dest [name p]) in
       Ok (with_files (files s ∪ {[d; posixpath.join d ["builder.json"]]}) s)
  |}.

(** The same host with a downloader that reports success and fetches
    nothing. *)
Definition idle_downloader : Collaborators :=
  {| shell_cwd := shell_cwd host; shell_cd := shell_cd host;
     shell_rm := shell_rm host; shell_mkdir := shell_mkdir host;
     shell_addpathenv := shell_addpathenv host;
     default_project := default_project host;
     find_project := find_project host; resolved := resolved host;
     get_config := get_config host;
     publish_variable := publish_variable host;
     download_run := fun _ _ _ s => Ok s |}.

Definition empty_self : Env := initial_self empty_config.

(** A process started in [/work], where [/work/libs/foo] is a project. *)
Definition process : Sys :=
  {| getcwd := "/work";
     files := {["/work"; "/work/libs"; "/work/libs/foo";
                "/work/libs/foo/builder.json"; "/work/libs/foo/build"]};
     environ := ∅; platform := "linux"; git_output := None |}.

Definition boot (s : Sys) : Machine :=
  {| self := empty_self; sys := s; search_dirs := []; calls := [] |}.

Definition cli (project_name : pyval) : Args :=
  {| args_project := Some project_name; args_cli_config := Some (PyDict []) |}.

Definition request (project_name : pyval) : Config :=
  {| cfg_dryrun := None; cfg_branch := None; cfg_shell := None;
     cfg_project := None; cfg_args := Some (cli project_name);
     cfg_variant := Some PyNone; cfg_spec := Some PyNone |}.

(** A project object handed over in the configuration. *)
Definition pinned : Project :=
  {| name := "pinned"; path := Some "/work/pinned" |}.

Definition pinned_request (project_name : pyval) : Config :=
  {| cfg_dryrun := None; cfg_branch := None; cfg_shell := None;
     cfg_project := Some pinned; cfg_args := Some (cli project_name);
     cfg_variant := Some PyNone; cfg_spec := Some PyNone |}.

(** Configurations that leave attributes out. *)
Definition partial (a : Args) (v sp : option pyval) : Config :=
  {| cfg_dryrun := None; cfg_branch := None; cfg_shell := None;
     cfg_project := None; cfg_args := Some a;
     cfg_variant := v; cfg_spec := sp |}.

Definition no_cli_config (project_name : pyval) : Args :=
  {| args_project := Some project_name; args_cli_config := None |}.

Definition no_project_attr : Args :=
  {| args_project := None; args_cli_config := Some (PyDict []) |}.

(** The runs the examples below look at. *)
Definition run (C : Collaborators) (conf : option Config)
    : Result unit * Machine :=
  Env_init C conf (boot process).

(** [libs/foo] requested on the command line: found on disk. *)
Definition built : Machine :=
  snd (run host (Some (request (PyStr "libs/foo")))).

(** An unknown project and a downloader that fetches nothing. *)
Definition not_fetched : Result unit * Machine :=
  run idle_downloader (Some (request (PyStr "bar"))).

(** A project in the configuration and another one on the command line. *)
Definition overridden : Result unit * Machine :=
  run host (Some (pinned_request (PyStr "libs/foo"))).

End Sample.

(** ** Reading the environment signals *)

(** A variable carries a signal when it is bound to a non-empty string; a
    variable that is missing or empty carries none. *)
Definition has_value (environ : gmap string string) (var v : string) : Prop :=
  environ !! var = Some v /\ v <> "".
Definition no_value (environ : gmap string string) (var : string) : Prop :=
  environ !! var = None \/ environ !! var = Some "".


(** A Travis push build: the pull-request variable is bound, to nothing. *)
Definition travis_push_build : gmap string string :=
  env_of [("TRAVIS_PULL_REQUEST_BRANCH", ""); ("GITHUB_HEAD_REF", "feature-x")].

(** ** What the first lines of the constructor compute *)

Section Setup.

Variable C : Collaborators.

(** What branch detection returns in the process [s]: it does return
    there, since [os.getcwd()] does, and the second case is never met
    ([detection_returns]). *)
Definition detected_branch (s : Sys) : string :=
  match _get_git_branch (environ s) (git_output s) (os_getcwd s) with
  | Ok b => b
  | Raise _ => "main"
  end.

(** Line 36: the branch. *)
Definition setup_branch (config : Config) (s : Sys) : string :=
  match cfg_branch config with
  | Some b => if PyStr.truthy b then b else detected_branch s
  | None => detected_branch s
  end.

(** Lines 39-40: the shell. *)
Definition setup_shell (config : Config) : Shell :=
  match cfg_shell config with
  | Some sh => sh
  | None => {| sh_dryrun := default false (cfg_dryrun config) |}
  end.

(** Line 43: the launch directory. *)
Definition setup_launch_dir (config : Config) (s : Sys) : string :=
  posixpath.abspath (getcwd s) (shell_cwd C (setup_shell config) s).

(** The state in which line 49 is reached. *)
Definition after_setup (config : Config) (m : Machine) : Machine :=
  {| self := set_launch_dir (Some (setup_launch_dir config (sys m)))
               (set_shell (Some (setup_shell config))
                  (set_branch (Some (setup_branch config (sys m)))
                     (initial_self config)));
     sys := sys m;
     search_dirs := [setup_launch_dir config (sys m)];
     calls := calls m ++ [Shell_cwd] |}.

(** The state in which line 54 is reached from [m]: line 52 has run if
    there was no project. *)
Definition after_default (m : Machine) : Machine :=
  match project (self m) with
  | Some _ => m
  | None =>
      {| self := set_project (default_project C (search_dirs m) (sys m))
                   (self m);
         sys := sys m;
         search_dirs := search_dirs m;
         calls := calls m ++ [Project_default_project] |}
  end.

End Setup.

(** Lines 58-64: the hints and the bare name that a requested name gives. *)
Definition requested_hints (cwd project_name : string) : list string :=
  match PyStr.split posixpath.sep project_name with
  | a :: (_ :: _) as p => [posixpath.abspath cwd (posixpath.join a p)]
  | _ => []
  end.
Definition requested_name (project_name : string) : string :=
  PyStr.last (PyStr.split posixpath.sep project_name).

(** A name with a path separator in it. *)
Definition contains_sep (project_name : string) : bool :=
  existsb (Ascii.eqb posixpath.sep) (list_ascii_of_string project_name).

(** Line 52 runs when the configuration brought no project. *)
Definition default_lookup (config : Config) : list Call :=
  match cfg_project config with
  | Some _ => []
  | None => [Project_default_project]
  end.

(** ** Kinds of calls *)

(** Calls made while the project is resolved (lines 43-77). *)
Definition resolution_call (c : Call) : bool :=
  match c with
  | Shell_cwd | Project_default_project | Project_find_project _ _
  | DownloadSource_run _ _ _ => true
  | _ => false
  end.

(** Lookups by name, default discovery and downloads. *)
Definition lookup_call (c : Call) : bool :=
  match c with
  | Project_default_project | Project_find_project _ _
  | DownloadSource_run _ _ _ => true
  | _ => false
  end.

(** Calls that destroy or create a directory. *)
Definition build_dir_call (c : Call) : bool :=
  match c with
  | Shell_rm _ | Shell_mkdir _ => true
  | _ => false
  end.

Definition addpathenv_call (c : Call) : bool :=
  match c with
  | Shell_addpathenv _ _ => true
  | _ => false
  end.

(** Publications of one of the three derived directories. *)
Definition dir_publication (c : Call) : bool :=
  match c with
  | Project_publish_variable var _ =>
      String.eqb var "build_dir" || String.eqb var "deps_dir"
      || String.eqb var "install_dir"
  | _ => false
  end.

(** The name-based lookups of a log, in order. *)
Definition lookups (cs : list Call) : list (string * list string) :=
  omap (fun c => match c with
                 | Project_find_project n hints => Some (n, hints)
                 | _ => None
                 end) cs.

(** ** More runs on the sample host *)

Module Cases.

(** The sample host with a downloader that raises. *)
Definition failing_downloader : Collaborators :=
  {| shell_cwd := shell_cwd Sample.host; shell_cd := shell_cd Sample.host;
     shell_rm := shell_rm Sample.host; shell_mkdir := shell_mkdir Sample.host;
     shell_addpathenv := shell_addpathenv Sample.host;
     default_project := default_project Sample.host;
     find_project := find_project Sample.host;
     resolved := resolved Sample.host;
     get_config := get_config Sample.host;
     publish_variable := publish_variable Sample.host;
     download_run := fun _ _ _ _ => Raise (Propagated "CalledProcessError") |}.

(** A configuration that brings its own branch and its own shell. *)
Definition equipped (project_name : pyval) : Config :=
  {| cfg_dryrun := Some false; cfg_branch := Some "release";
     cfg_shell := Some {| sh_dryrun := true |};
     cfg_project := None; cfg_args := Some (Sample.cli project_name);
     cfg_variant := Some PyNone; cfg_spec := Some PyNone |}.

(** A command line whose overrides move the build directory. *)
Definition overriding (project_name : pyval) (overrides : list (string * string))
    : Config :=
  {| cfg_dryrun := None; cfg_branch := None; cfg_shell := None;
     cfg_project := None;
     cfg_args := Some {| args_project := Some project_name;
                         args_cli_config := Some (PyDict overrides) |};
     cfg_variant := Some PyNone; cfg_spec := Some PyNone |}.

(** The project [bar], before and after the sample download. *)
Definition bar_wanted : Project := {| name := "bar"; path := None |}.
Definition bar_fetched : Project := {| name := "bar"; path := Some "/work/bar" |}.

(** The sample process once [bar] has been downloaded into [/work]. *)
Definition fetched : Sys :=
  Sample.with_files
    (files Sample.process ∪ {["/work/bar"; "/work/bar/builder.json"]})
    Sample.process.

(** The sample process on Windows. *)
Definition windows : Sys :=
  {| getcwd := getcwd Sample.process; files := files Sample.process;
     environ := environ Sample.process; platform := "win32";
     git_output := git_output Sample.process |}.

(** [libs/foo] requested on the command line, on Windows. *)
Definition built_on_windows : Machine :=
  snd (Env_init Sample.host (Some (Sample.request (PyStr "libs/foo")))
         (Sample.boot windows)).

End Cases.

(** A line of the probe's output that carries the current-branch marker. *)
Definition starred (line : string) : bool :=
  PyStr.truthy line && PyStr.startswith line "*".

(** No CI variable carries a value. *)
Definition no_ci_signal (environ : gmap string string) : Prop :=
  no_value environ "TRAVIS_PULL_REQUEST_BRANCH" /\
  no_value environ "GITHUB_HEAD_REF" /\
  no_value environ "GITHUB_REF".

Definition default_call (c : Call) : bool :=
  match c with
  | Project_default_project => true
  | _ => false
  end.

Definition cd_call (c : Call) : bool :=
  match c with
  | Shell_cd _ => true
  | _ => false
  end.

(** The two shapes lines 104-109 can give to the calls they make. *)
Definition windows_paths (paths : list Call) : Prop :=
  exists bin, paths = [Shell_addpathenv "PATH" bin].

Definition posix_paths (install : string) (paths : list Call) : Prop :=
  paths
  = [Shell_addpathenv "LD_LIBRARY_PATH"
       (posixpath.normpath (posixpath.join install ["lib64"]));
     Shell_addpathenv "LD_LIBRARY_PATH"
       (posixpath.normpath (posixpath.join install ["lib"]))].

Arguments posixpath.abspath : simpl never.
Arguments posixpath.join : simpl never.
Arguments posixpath.normpath : simpl never.
Arguments _get_git_branch : simpl never.
Arguments PyStr.split : simpl never.
Arguments PyStr.last : simpl never.

(** * Properties *)

(** ** Branch detection *)

Lemma env_truthy_has_value environ var v :
  has_value environ var v -> env_truthy (environ !! var) = Some v.
Proof.
  intros [-> Hv]. destruct v; [congruence | reflexivity].
Qed.

Lemma env_truthy_no_value environ var :
  no_value environ var -> env_truthy (environ !! var) = None.
Proof. intros [-> | ->]; reflexivity. Qed.





Lemma startswith_drop p s :
  PyStr.startswith s p = true -> p ++ PyStr.drop (String.length p) s = s.
Proof.
  unfold PyStr.startswith. revert s.
  induction p as [|a p IH]; intros s H; [reflexivity |].
  destruct s as [|b s]; [discriminate |]. simpl in H.
  destruct (ascii_dec a b) as [-> |]; [| discriminate].
  change (String b (p ++ PyStr.drop (String.length p) s) = String b s).
  f_equal. apply IH, H.
Qed.



(** C4, as stated, fails: [TRAVIS_PULL_REQUEST_BRANCH] is set, to the empty
    string, and branch detection returns the value of another signal instead
    of returning it verbatim. *)
Lemma empty_signal_not_returned :
  travis_push_build !! "TRAVIS_PULL_REQUEST_BRANCH" = Some "" /\
  _get_git_branch travis_push_build None (Ok "/work") = Ok "feature-x" /\
  _get_git_branch travis_push_build None (Ok "/work") <> Ok "".
Proof. repeat split. discriminate. Qed.

(** C4 (amended): branch detection is a short-circuiting priority chain over
    the signals that carry a non-empty value.  A non-empty
    [TRAVIS_PULL_REQUEST_BRANCH] is returned verbatim whatever the other
    signals are; failing that, a non-empty [GITHUB_HEAD_REF] is returned
    verbatim; failing both, a [GITHUB_REF] that starts with [refs/heads/] is
    returned without that prefix, and one that does not falls through to the
    version-control probe. *)
Theorem branch_priority_chain environ git_out cwd :
  (forall v, has_value environ "TRAVIS_PULL_REQUEST_BRANCH" v ->
             _get_git_branch environ git_out cwd = Ok v) /\
  (no_value environ "TRAVIS_PULL_REQUEST_BRANCH" ->
   forall v, has_value environ "GITHUB_HEAD_REF" v ->
             _get_git_branch environ git_out cwd = Ok v) /\
  (no_value environ "TRAVIS_PULL_REQUEST_BRANCH" ->
   no_value environ "GITHUB_HEAD_REF" ->
   forall ref, environ !! "GITHUB_REF" = Some ref ->
     (PyStr.startswith ref "refs/heads/" = true ->
      exists b, _get_git_branch environ git_out cwd = Ok b /\
                "refs/heads/" ++ b = ref) /\
     (PyStr.startswith ref "refs/heads/" = false ->
      _get_git_branch environ git_out cwd = git_probe_branch git_out cwd)).
Proof.
  unfold _get_git_branch. split; [| split].
  - intros v Hv. rewrite (env_truthy_has_value _ _ _ Hv). reflexivity.
  - intros Ht v Hv. rewrite (env_truthy_no_value _ _ Ht).
    rewrite (env_truthy_has_value _ _ _ Hv). reflexivity.
  - intros Ht Hh ref Href.
    rewrite (env_truthy_no_value _ _ Ht), (env_truthy_no_value _ _ Hh), Href.
    split; intros Hpre.
    + destruct ref as [|a r]; [discriminate |].
      cbn [env_truthy PyStr.truthy]. rewrite Hpre.
      eexists. split; [reflexivity | apply startswith_drop, Hpre].
    + destruct ref as [|a r]; [reflexivity |].
      cbn [env_truthy PyStr.truthy]. rewrite Hpre. reflexivity.
Qed.

(** The chain on one environment per link. *)
Lemma branch_priority_chain_witness :
  _get_git_branch
    (env_of [("TRAVIS_PULL_REQUEST_BRANCH", "feature-x");
             ("GITHUB_HEAD_REF", "topic"); ("GITHUB_REF", "refs/heads/main")])
    (Some "* dev") (Ok "/work") = Ok "feature-x" /\
  _get_git_branch
    (env_of [("GITHUB_HEAD_REF", "topic"); ("GITHUB_REF", "refs/heads/main")])
    (Some "* dev") (Ok "/work") = Ok "topic" /\
  (exists b,
     _get_git_branch (env_of [("GITHUB_REF", "refs/heads/main")])
       (Some "* dev") (Ok "/work") = Ok b /\
     "refs/heads/" ++ b = "refs/heads/main") /\
  _get_git_branch (env_of [("GITHUB_REF", "refs/tags/v1")]) (Some "* dev")
    (Ok "/work")
  = git_probe_branch (Some "* dev") (Ok "/work").
Proof.
  split; [| split; [| split]].
  - apply (proj1 (branch_priority_chain _ _ _)).
    split; [reflexivity | discriminate].
  - apply (proj1 (proj2 (branch_priority_chain _ _ _))).
    + left; reflexivity.
    + split; [reflexivity | discriminate].
  - apply (proj2 (proj2 (branch_priority_chain _ _ _)))
      with (ref := "refs/heads/main");
      [left; reflexivity | left; reflexivity | reflexivity | reflexivity].
  - apply (proj2 (proj2 (branch_priority_chain _ _ _)))
      with (ref := "refs/tags/v1");
      [left; reflexivity | left; reflexivity | reflexivity | reflexivity].
Defined.

(** An exception that leaves branch detection was raised in the handler. *)
Lemma raise_comes_from_handler environ git_out cwd e :
  _get_git_branch environ git_out cwd = Raise e ->
  git_out = None /\ cwd = Raise e.
Proof.
  unfold _get_git_branch, git_probe_branch.
  destruct (env_truthy (environ !! "TRAVIS_PULL_REQUEST_BRANCH"));
    [discriminate |].
  destruct (env_truthy (environ !! "GITHUB_HEAD_REF")); [discriminate |].
  assert (match git_out with
          | Some output =>
              match branch_from_git_output output with
              | Some branch => Ok branch
              | None => Ok "main"
              end
          | None => match cwd with Ok _ => Ok "main" | Raise e0 => Raise e0 end
          end = Raise e -> git_out = None /\ cwd = Raise e) as Hprobe.
  { destruct git_out as [output|].
    - destruct (branch_from_git_output output); discriminate.
    - destruct cwd; [discriminate | intros [= ->]; split; reflexivity]. }
  destruct (env_truthy (environ !! "GITHUB_REF")) as [ref|]; [| exact Hprobe].
  destruct (PyStr.startswith ref "refs/heads/"); [discriminate | exact Hprobe].
Qed.

(** In a process that has a working directory branch detection returns. *)
Lemma detection_returns s :
  _get_git_branch (environ s) (git_output s) (os_getcwd s)
  = Ok (detected_branch s).
Proof.
  unfold detected_branch.
  destruct (_get_git_branch (environ s) (git_output s) (os_getcwd s))
    as [b|e] eqn:Hrun; [reflexivity |].
  apply raise_comes_from_handler in Hrun as [_ Hcwd]. discriminate.
Qed.




(** ** The variable store *)

(** C9: [variables[item] = value] stores the pair and calls the publication
    hook exactly once, with that key and that value: the store then maps
    [item] to [value], every other key is as before, the insertion cannot
    fail, and the log of calls grows by the one call
    [Project._publish_variable(item, value)], whose effect on the process is
    the hook's. *)
Theorem setitem_stores_and_publishes_once C item value m :
  fst (Variables_setitem C item value m) = Ok tt /\
  variables (self (snd (Variables_setitem C item value m))) !! item = Some value /\
  (forall other, other <> item ->
     variables (self (snd (Variables_setitem C item value m))) !! other
     = variables (self m) !! other) /\
  calls (snd (Variables_setitem C item value m))
  = (calls m ++ [Project_publish_variable item value])%list /\
  sys (snd (Variables_setitem C item value m))
  = publish_variable C item value (sys m).
Proof.
  cbn. repeat split.
  - apply lookup_insert_eq.
  - intros other Hne. apply lookup_insert_ne. congruence.
Qed.

(** ** Splitting a name *)

Lemma split_cons c a r :
  PyStr.split c (String a r)
  = if Ascii.eqb a c then EmptyString :: PyStr.split c r
    else match PyStr.split c r with
         | f :: fs => String a f :: fs
         | [] => [String a EmptyString]
         end.
Proof. reflexivity. Qed.

Lemma split_nonempty c s : exists f fs, PyStr.split c s = f :: fs.
Proof.
  induction s as [|a r (f & fs & IH)]; [eexists _, _; reflexivity |].
  rewrite split_cons, IH. destruct (Ascii.eqb a c); eexists _, _; reflexivity.
Qed.

(** A string with the separator in it splits into two fields at least. *)
Lemma split_contains c s :
  existsb (Ascii.eqb c) (list_ascii_of_string s) = true ->
  exists first second more, PyStr.split c s = first :: second :: more.
Proof.
  induction s as [|a r IH]; [discriminate |].
  cbn [list_ascii_of_string existsb]. rewrite split_cons.
  destruct (Ascii.eqb_spec c a) as [<- | Hne].
  - intros _. rewrite Ascii.eqb_refl.
    destruct (split_nonempty c r) as (f & fs & ->). eexists _, _, _; reflexivity.
  - cbn [orb]. intros H. destruct (IH H) as (f & g & more & ->).
    destruct (Ascii.eqb_spec a c) as [-> | _]; [contradiction |].
    eexists _, _, _; reflexivity.
Qed.

Lemma contains_sep_truthy project_name :
  contains_sep project_name = true -> PyStr.truthy project_name = true.
Proof. destruct project_name; [discriminate | reflexivity]. Qed.

(** ** Absolute paths *)

Lemma isabs_cons path :
  posixpath.isabs path = true <-> exists r, path = String "/"%char r.
Proof.
  unfold posixpath.isabs, PyStr.startswith. split.
  - destruct path as [|a r]; [discriminate |]. cbn [String.prefix].
    destruct (ascii_dec "/"%char a) as [<- |]; [eauto | discriminate].
  - intros [r ->]. vm_compute. destruct r; reflexivity.
Qed.

Lemma isabs_app path more :
  posixpath.isabs path = true -> posixpath.isabs (path ++ more) = true.
Proof.
  intros H. apply isabs_cons in H as [r ->]. apply isabs_cons.
  exists (r ++ more). reflexivity.
Qed.

Lemma normpath_isabs path :
  posixpath.isabs path = true -> posixpath.isabs (posixpath.normpath path) = true.
Proof.
  intros H. unfold posixpath.normpath.
  pose proof H as Habs. apply isabs_cons in H as [r ->].
  cbn [PyStr.truthy negb]. unfold posixpath.isabs in Habs. rewrite Habs.
  match goal with
  | |- context [String.concat "/" ?l] => generalize (String.concat "/" l)
  end.
  intros body.
  destruct (PyStr.startswith (String "/"%char r) "//"
            && negb (PyStr.startswith (String "/"%char r) "///")).
  - change (String.concat "" (repeat "/" 2) ++ body)
      with (String "/"%char (String "/"%char body)).
    reflexivity.
  - change (String.concat "" (repeat "/" 1) ++ body)
      with (String "/"%char body).
    apply isabs_cons. eexists. reflexivity.
Qed.

Lemma join_isabs path more :
  posixpath.isabs path = true ->
  posixpath.isabs (posixpath.join path [more]) = true.
Proof.
  intros H. unfold posixpath.join. cbn [fold_left].
  destruct (PyStr.startswith more "/") eqn:Hm; [exact Hm |].
  destruct (negb (PyStr.truthy path) || posixpath.endswith_sep path);
    apply isabs_app, H.
Qed.

Lemma abspath_isabs cwd path :
  posixpath.isabs cwd = true \/ posixpath.isabs path = true ->
  posixpath.isabs (posixpath.abspath cwd path) = true.
Proof.
  intros H. unfold posixpath.abspath.
  destruct (posixpath.isabs path) eqn:Hp; apply normpath_isabs.
  - exact Hp.
  - destruct H as [H | H]; [| discriminate]. apply join_isabs, H.
Qed.

(** ** Running the monad *)

Lemma bind_ok {A B} (c : M A) (k : A -> M B) m a m' :
  c m = (Ok a, m') -> bind c k m = k a m'.
Proof. unfold bind. intros ->. reflexivity. Qed.

(** Unfolding the primitives of the monad. *)
Ltac unfold_monad :=
  unfold Variables_setitem, _publish_variable, self_shell, self_args,
    self_project_dot, self_get_git_branch, os_path_abspath, Project_find,
    Project_default, Download in *;
  unfold bind, ret, raise, lift, get_self, get_sys, get_search_dirs,
    modify_self, put_search_dirs, call, ask, getattr, log in *.

(** Symbolic execution: the monad, the attribute assignments and the
    projections are computed away, the collaborators, the paths and the
    finite maps stay. *)
Ltac mrun :=
  cbv beta iota zeta delta
    [build_environment resolve_project locate
     Variables_setitem _publish_variable self_shell self_args
     self_project_dot os_path_abspath Project_find Project_default Download
     bind ret raise get_self get_sys get_search_dirs modify_self
     put_search_dirs call ask getattr log
     self sys search_dirs calls
     dryrun variables branch shell launch_dir project args variant spec config
     root_dir build_dir deps_dir install_dir
     set_variables set_branch set_shell set_launch_dir set_project set_config
     set_root_dir set_build_dir set_deps_dir set_install_dir
     fst snd id].

(** One case distinction on the innermost scrutinee of the goal. *)
Ltac case_step :=
  match goal with
  | |- context [match ?x with _ => _ end] =>
      lazymatch x with
      | context [match _ with _ => _ end] => fail
      | _ => destruct x eqn:?
      end
  end.

(** A log that only grew, and by nothing else. *)
Ltac grown :=
  rewrite <- ?app_assoc;
  eexists; split; [first [reflexivity | symmetry; apply app_nil_r] | reflexivity].

Lemma forallb_weaken {A} (P Q : A -> bool) l :
  (forall x, P x = true -> Q x = true) ->
  forallb P l = true -> forallb Q l = true.
Proof.
  intros HPQ. induction l as [|x l IH]; [reflexivity |]. cbn.
  intros H. apply andb_prop in H as [Hx Hl].
  rewrite (HPQ x Hx), (IH Hl). reflexivity.
Qed.

Section Runs.

Variable C : Collaborators.

Lemma setup_run config m :
  setup C config m = (Ok tt, after_setup C (default empty_config config) m).
Proof.
  unfold setup, after_setup, setup_launch_dir, setup_shell, setup_branch.
  generalize (default empty_config config) as c. intros c.
  destruct c as [dr br sh pj ar va sp]. unfold_monad. cbn.
  destruct br as [b|]; [destruct (PyStr.truthy b) |]; cbn;
    rewrite ?detection_returns; destruct sh; cbn; reflexivity.
Qed.

(** Resolution touches one attribute, [project], leaves the search scope
    alone and makes resolution calls only. *)
Lemma resolve_frame m :
  self (snd (resolve_project C m))
  = set_project (project (self (snd (resolve_project C m)))) (self m) /\
  search_dirs (snd (resolve_project C m)) = search_dirs m /\
  exists l, calls (snd (resolve_project C m)) = (calls m ++ l)%list /\
            forallb resolution_call l = true.
Proof.
  destruct m as [[dr vs br sh ld pj ar va sp cf rd bd dd idr] s ds cs].
  unfold resolve_project, locate. unfold_monad. cbn.
  repeat (case_step; cbn).
  all: split; [reflexivity | split; [reflexivity |]]; grown.
Qed.

(** Lines 49-55, by what [args] holds. *)
Lemma resolve_no_args m :
  args (self m) = None ->
  resolve_project C m
  = (Raise (AttributeError "Env" "args"), after_default C m).
Proof.
  destruct m as [[dr vs br sh ld pj ar va sp cf rd bd dd idr] s ds cs].
  cbn [self args]. intros ->. unfold after_default.
  destruct pj; reflexivity.
Qed.

Lemma resolve_no_args_project m a :
  args (self m) = Some a -> args_project a = None ->
  resolve_project C m
  = (Raise (AttributeError "args" "project"), after_default C m).
Proof.
  destruct m as [[dr vs br sh ld pj ar va sp cf rd bd dd idr] s ds cs].
  cbn [self args]. intros -> Hp. unfold after_default.
  destruct pj; mrun; rewrite Hp; reflexivity.
Qed.

Lemma resolve_unrequested m a v :
  args (self m) = Some a -> args_project a = Some v ->
  pyval_truthy v = false ->
  resolve_project C m = (Ok tt, after_default C m).
Proof.
  destruct m as [[dr vs br sh ld pj ar va sp cf rd bd dd idr] s ds cs].
  cbn [self args]. intros -> Hp Hv. unfold after_default.
  destruct pj; mrun; rewrite Hp, Hv; reflexivity.
Qed.

Lemma resolve_requested m a project_name :
  args (self m) = Some a -> args_project a = Some (PyStr project_name) ->
  PyStr.truthy project_name = true ->
  resolve_project C m = locate C project_name (after_default C m).
Proof.
  destruct m as [[dr vs br sh ld pj ar va sp cf rd bd dd idr] s ds cs].
  cbn [self args]. intros -> Hp Hv. unfold after_default, resolve_project.
  unfold self_args, Project_default.
  destruct pj;
    cbv beta iota zeta delta
      [bind ret raise get_self modify_self ask getattr self project args
       sys search_dirs calls set_project];
    rewrite Hp; cbn [pyval_truthy]; rewrite Hv; reflexivity.
Qed.

(** Lines 56-77, with the hints and the bare name spelled out. *)
Lemma locate_hints project_name m :
  locate C project_name m =
  bind (Project_find C (requested_name project_name)
          (requested_hints (getcwd (sys m)) project_name))
       (fun found =>
          bind (if negb (path_truthy found) then
                  bind get_self (fun e =>
                  bind (getattr "branch" (branch e)) (fun br =>
                  bind (Download C found br ".") (fun _ =>
                  bind (os_path_abspath ".") (fun here =>
                  bind (Project_find C (name found) [here]) (fun again =>
                  if resolved C again then ret again
                  else raise AssertionError)))))
                else ret found)
               (fun found => modify_self (set_project (Some found)))) m.
Proof.
  unfold locate, requested_hints, requested_name.
  destruct (PyStr.split posixpath.sep project_name) as [|a [|b p]];
    reflexivity.
Qed.

(** Whatever happens next, the first thing [locate] does is the lookup. *)
Lemma locate_first_call project_name m :
  exists later,
    calls (snd (locate C project_name m))
    = (calls m
       ++ Project_find_project (requested_name project_name)
            (requested_hints (getcwd (sys m)) project_name) :: later)%list.
Proof.
  rewrite locate_hints.
  destruct m as [[dr vs br sh ld pj ar va sp cf rd bd dd idr] s ds cs].
  mrun.
  repeat (case_step; mrun).
  all: rewrite <- ?app_assoc; eexists; reflexivity.
Qed.

(** Lines 69-75 when the second lookup is unresolved too. *)
Lemma locate_asserts project_name m found br s' :
  found = find_project C (search_dirs m) (sys m)
            (requested_name project_name)
            (requested_hints (getcwd (sys m)) project_name) ->
  path_truthy found = false ->
  branch (self m) = Some br ->
  download_run C found br "." (sys m) = Ok s' ->
  resolved C (find_project C (search_dirs m) s' (name found)
                [posixpath.abspath (getcwd s') "."]) = false ->
  fst (locate C project_name m) = Raise AssertionError /\
  calls (snd (locate C project_name m))
  = (calls m
     ++ [Project_find_project (requested_name project_name)
           (requested_hints (getcwd (sys m)) project_name);
         DownloadSource_run found br ".";
         Project_find_project (name found)
           [posixpath.abspath (getcwd s') "."]])%list.
Proof.
  rewrite locate_hints.
  destruct m as [[dr vs b sh ld pj ar va sp cf rd bd dd idr] s ds cs].
  cbn [self sys search_dirs calls branch].
  intros Hfound Hpath -> Hdl Hres. mrun.
  rewrite <- Hfound, Hpath. cbn [negb]. mrun. rewrite Hdl. mrun.
  rewrite Hres.
  rewrite <- !app_assoc. split; reflexivity.
Qed.

(** The state in which line 54 is reached. *)
Lemma after_default_setup conf m :
  let m1 := after_default C (after_setup C conf m) in
  sys m1 = sys m /\
  search_dirs m1 = [setup_launch_dir C conf (sys m)] /\
  calls m1 = (calls m ++ Shell_cwd :: default_lookup conf)%list /\
  branch (self m1) = Some (setup_branch conf (sys m)) /\
  args (self m1) = cfg_args conf /\
  (forall p, cfg_project conf = Some p -> project (self m1) = Some p).
Proof.
  destruct conf as [dr br sh [p|] ar va sp];
    unfold after_default, after_setup, default_lookup;
    cbv beta iota zeta delta
      [self sys search_dirs calls branch args project set_project
       set_launch_dir set_shell set_branch initial_self
       cfg_project cfg_args];
    (split; [reflexivity |]); (split; [reflexivity |]);
    (split; [rewrite <- ?app_assoc; reflexivity |]);
    (split; [reflexivity |]); (split; [reflexivity |]).
  - intros p' [= <-]. reflexivity.
  - intros p' [=].
Qed.

(** Lines 82-84 on an object that lacks an attribute. *)
Lemma build_missing_variant m p :
  project (self m) = Some p -> variant (self m) = None ->
  fst (build_environment C m) = Raise (AttributeError "Env" "variant").
Proof.
  destruct m as [[dr vs br sh ld pj ar va sp cf rd bd dd idr] s ds cs].
  cbn [self project variant]. intros -> ->. reflexivity.
Qed.

Lemma build_missing_spec m p v :
  project (self m) = Some p -> variant (self m) = Some v ->
  spec (self m) = None ->
  fst (build_environment C m) = Raise (AttributeError "Env" "spec").
Proof.
  destruct m as [[dr vs br sh ld pj ar va sp cf rd bd dd idr] s ds cs].
  cbn [self project variant spec]. intros -> -> ->. reflexivity.
Qed.

Lemma build_missing_cli_config m p v sp a :
  project (self m) = Some p -> variant (self m) = Some v ->
  spec (self m) = Some sp -> args (self m) = Some a ->
  args_cli_config a = None ->
  fst (build_environment C m) = Raise (AttributeError "args" "cli_config").
Proof.
  destruct m as [[dr vs br sh ld pj ar va sp' cf rd bd dd idr] s ds cs].
  cbn [self project variant spec args]. intros -> -> -> -> Hcli.
  mrun. rewrite Hcli. reflexivity.
Qed.

(** The state in which line 79 is reached. *)
Lemma resolution_frame config m :
  let m1 := after_setup C (default empty_config config) m in
  let m0 := snd (resolution C config m) in
  self m0 = set_project (project (self m0)) (self m1) /\
  search_dirs m0 = search_dirs m1 /\
  exists l, calls m0 = (calls m ++ l)%list /\
            forallb resolution_call l = true.
Proof.
  cbn zeta. unfold resolution.
  rewrite (bind_ok _ _ _ _ _ (setup_run config m)).
  destruct (resolve_frame (after_setup C (default empty_config config) m))
    as (Hself & Hdirs & l & Hcalls & Hl).
  split; [exact Hself | split; [exact Hdirs |]].
  exists (Shell_cwd :: l). split; [| exact Hl].
  rewrite Hcalls. cbn. rewrite <- app_assoc. reflexivity.
Qed.

(** The constructor, as the resolution followed by the test of line 79. *)
Lemma Env_init_cases config m :
  Env_init C config m =
  match resolution C config m with
  | (Ok _, m0) =>
      if nothing_to_build C (self m0) then (Ok tt, m0)
      else build_environment C m0
  | (Raise e, m0) => (Raise e, m0)
  end.
Proof.
  unfold Env_init. unfold bind at 1.
  destruct (resolution C config m) as [[[]|e] m0]; [| reflexivity].
  unfold bind, get_self, ret.
  destruct (nothing_to_build C (self m0)); reflexivity.
Qed.

Lemma add_library_paths_run sh install m :
  exists l s,
    add_library_paths C sh install m
    = (Ok tt, {| self := self m; sys := s; search_dirs := search_dirs m;
                 calls := calls m ++ l |}) /\
    forallb addpathenv_call l = true.
Proof.
  unfold add_library_paths. unfold_monad.
  destruct (String.eqb (platform (sys m)) "win32"); cbn;
    rewrite <- ?app_assoc; do 2 eexists; split; reflexivity.
Qed.

Lemma prepare_build_dir_run sh build m :
  prepare_build_dir C sh build m
  = (Ok tt, {| self := self m;
               sys := shell_mkdir C sh build
                        (if bool_decide (build ∈ files (sys m))
                         then shell_rm C sh build (sys m) else sys m);
               search_dirs := search_dirs m;
               calls := calls m
                        ++ (if bool_decide (build ∈ files (sys m))
                            then [Shell_rm build] else [])
                        ++ [Shell_mkdir build] |}).
Proof.
  unfold prepare_build_dir. unfold_monad.
  destruct (bool_decide (build ∈ files (sys m))); cbn;
    rewrite <- ?app_assoc; reflexivity.
Qed.

(** A run of lines 82-123 that returns: what it leaves in the object, in
    the search scope and in the log. *)
Lemma build_environment_ok m0 m' :
  build_environment C m0 = (Ok tt, m') ->
  exists v sp cli cfg root build deps install sh l2 s6,
    (config (self m') = Some cfg /\ root_dir (self m') = Some root /\
     build_dir (self m') = Some build /\ deps_dir (self m') = Some deps /\
     install_dir (self m') = Some install) /\
    (shell (self m') = Some sh /\ project (self m') = project (self m0)) /\
    variables (self m')
    = <["install_dir" := install]>
        (<["deps_dir" := deps]>
           (<["build_dir" := build]>
              (<["root_dir" := root]> (variables (self m0))))) /\
    (let s1 := shell_cd C sh root
                 (publish_variable C "root_dir" root (sys m0)) in
     let s2 := publish_variable C "build_dir" build s1 in
     let s3 := publish_variable C "deps_dir" deps s2 in
     build = posixpath.abspath (getcwd s1)
               (config_get cfg "build_dir" (posixpath.join root ["build"])) /\
     deps = posixpath.abspath (getcwd s2)
              (config_get cfg "deps_dir" (posixpath.join build ["deps"])) /\
     install = posixpath.abspath (getcwd s3)
                 (config_get cfg "install_dir"
                    (posixpath.join build ["install"]))) /\
    sys m' = shell_mkdir C sh build
               (if bool_decide (build ∈ files s6)
                then shell_rm C sh build s6 else s6) /\
    search_dirs m' = (search_dirs m0 ++ [build; root; deps])%list /\
    calls m'
    = (calls m0
       ++ [Project_use_variant v; Project_get_config sp cli;
           Project_publish_variable "root_dir" root; Shell_cd root;
           Project_publish_variable "build_dir" build;
           Project_publish_variable "deps_dir" deps;
           Project_publish_variable "install_dir" install]
       ++ l2
       ++ (if bool_decide (build ∈ files s6) then [Shell_rm build] else [])
       ++ [Shell_mkdir build])%list /\
    forallb addpathenv_call l2 = true.
Proof.
  destruct m0 as [[dr vs br sh ld pj ar va sp cf rd bd dd idr] s ds cs].
  mrun.
  destruct pj as [p|]; [| discriminate].
  destruct va as [v|]; [| discriminate].
  destruct sp as [sp|]; [| discriminate].
  destruct ar as [a|]; [| discriminate].
  destruct (args_cli_config a) as [cli|]; [| discriminate].
  destruct (path p) as [d|]; [| discriminate].
  destruct sh as [sh|]; [| discriminate].
  match goal with
  | |- context [add_library_paths C ?x ?i ?m] =>
      destruct (add_library_paths_run x i m) as (l2 & s5 & -> & Hl2)
  end.
  mrun.
  match goal with
  | |- context [prepare_build_dir C ?x ?b ?m] =>
      rewrite (prepare_build_dir_run x b m)
  end.
  mrun. intros [= <-]. mrun.
  exists v, sp, cli. eexists. eexists. eexists. eexists. eexists.
  exists sh, l2, s5.
  split; [repeat split |].
  split; [split; reflexivity |].
  split; [reflexivity |].
  split; [repeat split |].
  split; [reflexivity |].
  split; [reflexivity |].
  split; [| exact Hl2].
  rewrite <- !app_assoc. reflexivity.
Qed.

Lemma addpathenv_not_lookup l :
  forallb addpathenv_call l = true ->
  forallb (fun c => negb (lookup_call c)) l = true.
Proof.
  induction l as [|c l IH]; [reflexivity |]. cbn.
  intros H. apply andb_prop in H as [Hc Hl].
  rewrite (IH Hl). destruct c; try discriminate; reflexivity.
Qed.

(** Lines 82-123 never look a project up, and never rebind [project]. *)
Lemma build_frame m :
  project (self (snd (build_environment C m))) = project (self m) /\
  exists l, calls (snd (build_environment C m)) = (calls m ++ l)%list /\
            forallb (fun c => negb (lookup_call c)) l = true.
Proof.
  destruct m as [[dr vs br sh ld pj ar va sp cf rd bd dd idr] s ds cs].
  mrun.
  destruct pj as [p|]; [| split; [reflexivity | grown]].
  destruct va as [v|]; [| split; [reflexivity | grown]].
  destruct sp as [sp|]; [| split; [reflexivity | grown]].
  destruct ar as [a|]; [| split; [reflexivity | grown]].
  destruct (args_cli_config a) as [cli|]; [| split; [reflexivity | grown]].
  destruct (path p) as [d|]; [| split; [reflexivity | grown]].
  destruct sh as [sh|]; [| split; [reflexivity | grown]].
  match goal with
  | |- context [add_library_paths C ?x ?i ?m] =>
      destruct (add_library_paths_run x i m) as (l2 & s5 & -> & Hl2)
  end.
  mrun.
  match goal with
  | |- context [prepare_build_dir C ?x ?b ?m] =>
      rewrite (prepare_build_dir_run x b m)
  end.
  mrun. split; [reflexivity |].
  rewrite <- !app_assoc. eexists. split; [reflexivity |].
  cbn [forallb app lookup_call negb andb].
  rewrite forallb_app, (addpathenv_not_lookup _ Hl2).
  destruct (bool_decide _); reflexivity.
Qed.

End Runs.

(** ** The constructor *)

Section Assembly.

Variable C : Collaborators.

(** C8: when, once the project has been resolved (lines 16-77 have
    returned), the project is absent or unresolved, the constructor returns
    there and then, in the very state resolution left: no configuration has
    been built, none of [root_dir], [build_dir], [deps_dir], [install_dir]
    is set, the variable store is empty (nothing was published), the search
    scope is the launch directory alone, and the only calls made are those
    of resolution ([shell.cwd], default discovery, lookups, the download):
    no [cd], no [rm], no [mkdir]. *)
Theorem nothing_to_build_returns conf m m0 :
  resolution C conf m = (Ok tt, m0) ->
  nothing_to_build C (self m0) = true ->
  Env_init C conf m = (Ok tt, m0) /\
  (config (self m0) = None /\ root_dir (self m0) = None /\
   build_dir (self m0) = None /\ deps_dir (self m0) = None /\
   install_dir (self m0) = None) /\
  variables (self m0) = ∅ /\
  search_dirs m0
  = [setup_launch_dir C (default empty_config conf) (sys m)] /\
  exists l, calls m0 = (calls m ++ l)%list /\
            forallb resolution_call l = true.
Proof.
  intros Hres Hnone.
  split; [rewrite Env_init_cases, Hres, Hnone; reflexivity |].
  pose proof (resolution_frame C conf m) as Hframe.
  cbn zeta in Hframe. rewrite Hres in Hframe.
  destruct Hframe as (Hself & Hdirs & Hcalls).
  cbn [snd] in *.
  split; [rewrite Hself; repeat split |].
  split; [rewrite Hself; reflexivity |].
  split; [rewrite Hdirs; reflexivity | exact Hcalls].
Qed.

(** C7: in a run of the constructor that returns with a resolved project,
    the shell is asked to remove the build directory if [os.path.exists]
    finds it, then to create it; these are the last calls of the run and
    the only removals and creations in it (so each happens at most, and
    the creation exactly, once), they come after the publication of
    [build_dir], [deps_dir] and [install_dir], and the process is left as
    [shell.mkdir] leaves it, run on what [shell.rm] left when the directory
    existed. *)
Theorem build_dir_recreated_once conf m m' :
  Env_init C conf m = (Ok tt, m') ->
  nothing_to_build C (self m') = false ->
  exists sh build deps install before between s,
    (shell (self m') = Some sh /\
     build_dir (self m') = Some build /\ deps_dir (self m') = Some deps /\
     install_dir (self m') = Some install) /\
    calls m'
    = (calls m ++ before
       ++ [Project_publish_variable "build_dir" build;
           Project_publish_variable "deps_dir" deps;
           Project_publish_variable "install_dir" install]
       ++ between
       ++ (if bool_decide (build ∈ files s) then [Shell_rm build] else [])
       ++ [Shell_mkdir build])%list /\
    forallb (fun c => negb (build_dir_call c)) (before ++ between) = true /\
    sys m' = shell_mkdir C sh build
               (if bool_decide (build ∈ files s)
                then shell_rm C sh build s else s).
Proof.
  intros Hrun Hsome. rewrite Env_init_cases in Hrun.
  destruct (resolution C conf m) as [[[]|e] m0] eqn:Hres; [| discriminate].
  pose proof (resolution_frame C conf m) as Hframe.
  cbn zeta in Hframe. rewrite Hres in Hframe. cbn [snd] in Hframe.
  destruct Hframe as (_ & _ & l & Hcalls & Hl).
  destruct (nothing_to_build C (self m0)) eqn:Hnone.
  { injection Hrun as <-. congruence. }
  apply build_environment_ok in Hrun
    as (v & sp & cli & cfg & root & build & deps & install & sh & l2 & s6
        & (_ & _ & Hb & Hd & Hi) & (Hsh & _) & _ & _ & Hsys & _ & Hlog & Hl2).
  exists sh, build, deps, install,
    (l ++ [Project_use_variant v; Project_get_config sp cli;
           Project_publish_variable "root_dir" root; Shell_cd root])%list,
    l2, s6.
  split; [repeat split; assumption |].
  split; [rewrite Hlog, Hcalls, <- !app_assoc; reflexivity |].
  split; [| exact Hsys].
  rewrite !forallb_app. cbn [forallb build_dir_call negb andb].
  rewrite (forallb_weaken resolution_call _ l),
    (forallb_weaken addpathenv_call _ l2);
    [reflexivity | intros []; (discriminate || reflexivity) | exact Hl2
     | intros []; (discriminate || reflexivity) | exact Hl].
Qed.

(** C6: in a run of the constructor that returns with a resolved
    project, [build_dir], [deps_dir] and [install_dir] are set, each to the
    result of [os.path.abspath] in the process as the previous step left it
    (after [shell.cd(root_dir)] for the first); where the merged
    configuration has no [build_dir] key the path made absolute is
    [root_dir/build], where it has no [deps_dir] key it is [build_dir/deps],
    where it has no [install_dir] key it is [build_dir/install], and with
    all three keys missing and an absolute [root_dir] the three results are
    absolute paths.  Each is stored in the variable store and published
    through it, [build_dir] first, then [deps_dir], then [install_dir], and
    nowhere else in the run. *)
Theorem derived_dirs_default conf m m' :
  Env_init C conf m = (Ok tt, m') ->
  nothing_to_build C (self m') = false ->
  exists cfg root build deps install before after sh s0,
    (config (self m') = Some cfg /\ root_dir (self m') = Some root /\
     build_dir (self m') = Some build /\ deps_dir (self m') = Some deps /\
     install_dir (self m') = Some install) /\
    (let s1 := shell_cd C sh root (publish_variable C "root_dir" root s0) in
     let s2 := publish_variable C "build_dir" build s1 in
     let s3 := publish_variable C "deps_dir" deps s2 in
     (cfg !! "build_dir" = None ->
      build = posixpath.abspath (getcwd s1) (posixpath.join root ["build"])) /\
     (cfg !! "deps_dir" = None ->
      deps = posixpath.abspath (getcwd s2) (posixpath.join build ["deps"])) /\
     (cfg !! "install_dir" = None ->
      install
      = posixpath.abspath (getcwd s3) (posixpath.join build ["install"]))) /\
    (posixpath.isabs root = true ->
     cfg !! "build_dir" = None -> cfg !! "deps_dir" = None ->
     cfg !! "install_dir" = None ->
     posixpath.isabs build = true /\ posixpath.isabs deps = true /\
     posixpath.isabs install = true) /\
    (variables (self m') !! "build_dir" = Some build /\
     variables (self m') !! "deps_dir" = Some deps /\
     variables (self m') !! "install_dir" = Some install) /\
    calls m'
    = (calls m ++ before
       ++ [Project_publish_variable "build_dir" build;
           Project_publish_variable "deps_dir" deps;
           Project_publish_variable "install_dir" install]
       ++ after)%list /\
    forallb (fun c => negb (dir_publication c)) (before ++ after) = true.
Proof.
  intros Hrun Hsome. rewrite Env_init_cases in Hrun.
  destruct (resolution C conf m) as [[[]|e] m0] eqn:Hres; [| discriminate].
  pose proof (resolution_frame C conf m) as Hframe.
  cbn zeta in Hframe. rewrite Hres in Hframe. cbn [snd] in Hframe.
  destruct Hframe as (_ & _ & l & Hcalls & Hl).
  destruct (nothing_to_build C (self m0)) eqn:Hnone.
  { injection Hrun as <-. congruence. }
  apply build_environment_ok in Hrun
    as (v & sp & cli & cfg & root & build & deps & install & sh & l2 & s6
        & Hattrs & _ & Hvars & Hpaths & _ & _ & Hlog & Hl2).
  cbn zeta in Hpaths. destruct Hpaths as (Hb & Hd & Hi).
  set (s1 := shell_cd C sh root (publish_variable C "root_dir" root (sys m0)))
    in *.
  assert (Hdb : cfg !! "build_dir" = None ->
                build = posixpath.abspath (getcwd s1)
                          (posixpath.join root ["build"])).
  { intros Hk. rewrite Hb at 1. unfold config_get. rewrite Hk. reflexivity. }
  assert (Hdd : cfg !! "deps_dir" = None ->
                deps = posixpath.abspath
                         (getcwd (publish_variable C "build_dir" build s1))
                         (posixpath.join build ["deps"])).
  { intros Hk. rewrite Hd at 1. unfold config_get. rewrite Hk. reflexivity. }
  assert (Hdi : cfg !! "install_dir" = None ->
                install
                = posixpath.abspath
                    (getcwd (publish_variable C "deps_dir" deps
                               (publish_variable C "build_dir" build s1)))
                    (posixpath.join build ["install"])).
  { intros Hk. rewrite Hi at 1. unfold config_get. rewrite Hk. reflexivity. }
  exists cfg, root, build, deps, install,
    (l ++ [Project_use_variant v; Project_get_config sp cli;
           Project_publish_variable "root_dir" root; Shell_cd root])%list,
    (l2 ++ (if bool_decide (build ∈ files s6) then [Shell_rm build] else [])
        ++ [Shell_mkdir build])%list,
    sh, (sys m0).
  split; [exact Hattrs |].
  split; [cbn zeta; fold s1; auto |].
  split.
  { intros Hroot Hkb Hkd Hki.
    assert (Habs : posixpath.isabs build = true).
    { rewrite (Hdb Hkb). apply abspath_isabs. right.
      apply join_isabs, Hroot. }
    split; [exact Habs |]. split.
    - rewrite (Hdd Hkd). apply abspath_isabs. right.
      apply join_isabs, Habs.
    - rewrite (Hdi Hki). apply abspath_isabs. right.
      apply join_isabs, Habs. }
  split.
  { rewrite Hvars. split; [| split].
    - rewrite lookup_insert_ne by discriminate.
      rewrite lookup_insert_ne by discriminate.
      apply lookup_insert_eq.
    - rewrite lookup_insert_ne by discriminate. apply lookup_insert_eq.
    - apply lookup_insert_eq. }
  split.
  - rewrite Hlog, Hcalls, <- !app_assoc. reflexivity.
  - rewrite !forallb_app. cbn [forallb dir_publication negb andb].
    rewrite (forallb_weaken resolution_call _ l),
      (forallb_weaken addpathenv_call _ l2);
      [| intros [] ; (discriminate || reflexivity) | exact Hl2
       | intros [] ; (discriminate || reflexivity) | exact Hl].
    destruct (bool_decide _); reflexivity.
Qed.

(** C1 (amended): when the requested project is not found locally (the
    first lookup returns a project whose [path] is empty), the download
    returns, and the second lookup, with the download destination as its
    hint, is unresolved as well, the constructor raises [AssertionError],
    the failed [assert project.resolved()], after exactly these calls:
    [shell.cwd], default discovery if the configuration brought no
    project, the lookup, the download, the second lookup. *)
Theorem unresolved_after_download_asserts conf m a project_name found s' :
  cfg_args conf = Some a ->
  args_project a = Some (PyStr project_name) ->
  project_name <> "" ->
  found = find_project C [setup_launch_dir C conf (sys m)] (sys m)
            (requested_name project_name)
            (requested_hints (getcwd (sys m)) project_name) ->
  path_truthy found = false ->
  download_run C found (setup_branch conf (sys m)) "." (sys m) = Ok s' ->
  resolved C (find_project C [setup_launch_dir C conf (sys m)] s'
                (name found) [posixpath.abspath (getcwd s') "."]) = false ->
  fst (Env_init C (Some conf) m) = Raise AssertionError /\
  calls (snd (Env_init C (Some conf) m))
  = (calls m ++ Shell_cwd :: default_lookup conf
     ++ [Project_find_project (requested_name project_name)
           (requested_hints (getcwd (sys m)) project_name);
         DownloadSource_run found (setup_branch conf (sys m)) ".";
         Project_find_project (name found)
           [posixpath.abspath (getcwd s') "."]])%list.
Proof.
  intros Hargs Hproj Hne Hfound Hpath Hdl Hres.
  destruct (after_default_setup C conf m) as (Hs & Hd & Hc & Hb & Ha & _).
  cbn zeta in *.
  rewrite Env_init_cases. unfold resolution.
  rewrite (bind_ok _ _ _ _ _ (setup_run C (Some conf) m)).
  change (default empty_config (Some conf)) with conf.
  rewrite (resolve_requested C _ a project_name);
    [| exact Hargs | exact Hproj
     | destruct project_name; [congruence | reflexivity]].
  set (m1 := after_default C (after_setup C conf m)) in *.
  destruct (locate_asserts C project_name m1 found
              (setup_branch conf (sys m)) s') as [Hr Hlog].
  - rewrite Hs, Hd. exact Hfound.
  - exact Hpath.
  - exact Hb.
  - rewrite Hs. exact Hdl.
  - rewrite Hd. exact Hres.
  - destruct (locate C project_name m1) as [r m2].
    cbn [fst snd] in Hr, Hlog. subst r. cbn [fst snd].
    split; [reflexivity |].
    rewrite Hlog, Hc, Hs, <- !app_assoc. reflexivity.
Qed.

(** C2 (amended): for a requested name with a path separator in it, the
    lookup is made with the last segment of the name as the bare name and
    with one hint, the absolute path of all the segments joined again, the
    last one included.  It is the first lookup of the run, right after
    [shell.cwd] and default discovery. *)
Theorem requested_path_is_the_hint conf m a project_name :
  cfg_args conf = Some a ->
  args_project a = Some (PyStr project_name) ->
  contains_sep project_name = true ->
  exists first rest later,
    PyStr.split posixpath.sep project_name = first :: rest /\
    rest <> [] /\
    calls (snd (Env_init C (Some conf) m))
    = (calls m ++ Shell_cwd :: default_lookup conf
       ++ Project_find_project (PyStr.last (first :: rest))
            [posixpath.abspath (getcwd (sys m)) (posixpath.join first rest)]
          :: later)%list.
Proof.
  intros Hargs Hproj Hsep.
  destruct (split_contains _ _ Hsep) as (first & second & more & Hsplit).
  destruct (after_default_setup C conf m) as (Hs & Hd & Hc & Hb & Ha & _).
  cbn zeta in *.
  set (m1 := after_default C (after_setup C conf m)) in *.
  destruct (locate_first_call C project_name m1) as (later0 & Hfirst).
  unfold requested_name, requested_hints in Hfirst.
  rewrite Hsplit, Hs, Hc, <- app_assoc in Hfirst.
  assert (Hres : resolution C (Some conf) m = locate C project_name m1).
  { unfold resolution.
    rewrite (bind_ok _ _ _ _ _ (setup_run C (Some conf) m)).
    change (default empty_config (Some conf)) with conf.
    apply (resolve_requested C _ a);
      [exact Hargs | exact Hproj
       | apply contains_sep_truthy, Hsep]. }
  exists first, (second :: more).
  rewrite Env_init_cases, Hres.
  destruct (locate C project_name m1) as [[[]|e] m2]; cbn [snd] in Hfirst.
  - destruct (nothing_to_build C (self m2)).
    + exists later0.
      split; [exact Hsplit | split; [discriminate | exact Hfirst]].
    + destruct (build_frame C m2) as (_ & l & Hl & _).
      exists (later0 ++ l)%list.
      split; [exact Hsplit | split; [discriminate |]].
      rewrite Hl, Hfirst, <- !app_assoc. reflexivity.
  - exists later0.
    split; [exact Hsplit | split; [discriminate | exact Hfirst]].
Qed.

(** C3 (amended): when the configuration brings a project and the parsed
    arguments name none ([args.project] is [None] or empty), the
    constructor keeps that project and makes no default discovery, no
    lookup by name and no download, however the run ends. *)
Theorem supplied_project_kept conf m supplied a requested :
  cfg_project conf = Some supplied ->
  cfg_args conf = Some a ->
  args_project a = Some requested ->
  pyval_truthy requested = false ->
  project (self (snd (Env_init C (Some conf) m))) = Some supplied /\
  exists l,
    calls (snd (Env_init C (Some conf) m)) = (calls m ++ l)%list /\
    forallb (fun c => negb (lookup_call c)) l = true.
Proof.
  intros Hsup Hargs Hreq Hfalse.
  destruct (after_default_setup C conf m) as (Hs & Hd & Hc & Hb & Ha & Hp).
  cbn zeta in *.
  set (m1 := after_default C (after_setup C conf m)) in *.
  assert (Hres : resolution C (Some conf) m = (Ok tt, m1)).
  { unfold resolution.
    rewrite (bind_ok _ _ _ _ _ (setup_run C (Some conf) m)).
    change (default empty_config (Some conf)) with conf.
    apply (resolve_unrequested C _ a requested);
      [exact Hargs | exact Hreq | exact Hfalse]. }
  unfold default_lookup in Hc. rewrite Hsup in Hc.
  rewrite Env_init_cases, Hres.
  destruct (nothing_to_build C (self m1)).
  - cbn [snd]. split; [exact (Hp _ Hsup) |].
    exists [Shell_cwd]. split; [exact Hc | reflexivity].
  - destruct (build_frame C m1) as (Hkeep & l & Hl & Hquiet).
    split; [rewrite Hkeep; exact (Hp _ Hsup) |].
    exists (Shell_cwd :: l). split; [| exact Hquiet].
    rewrite Hl, Hc, <- app_assoc. reflexivity.
Qed.

(** C10 (amended): the constructor reads [self.args] and [args.project]
    on every run, and [self.variant], [self.spec] and [args.cli_config],
    in this order, only once a project has resolved.  A configuration
    without [args], or whose [args] has no [project], makes it raise
    [AttributeError]; one without [variant], [spec] or [args.cli_config]
    makes it raise [AttributeError] when a project resolves, and lets it
    return normally when none does. *)
Theorem attribute_preconditions conf m :
  let cfg := default empty_config conf in
  (cfg_args cfg = None ->
   fst (Env_init C conf m) = Raise (AttributeError "Env" "args")) /\
  (forall a, cfg_args cfg = Some a -> args_project a = None ->
   fst (Env_init C conf m) = Raise (AttributeError "args" "project")) /\
  (forall m0, resolution C conf m = (Ok tt, m0) ->
   (nothing_to_build C (self m0) = true ->
    Env_init C conf m = (Ok tt, m0)) /\
   (nothing_to_build C (self m0) = false ->
    (cfg_variant cfg = None ->
     fst (Env_init C conf m) = Raise (AttributeError "Env" "variant")) /\
    (cfg_variant cfg <> None -> cfg_spec cfg = None ->
     fst (Env_init C conf m) = Raise (AttributeError "Env" "spec")) /\
    (cfg_variant cfg <> None -> cfg_spec cfg <> None ->
     forall a, cfg_args cfg = Some a -> args_cli_config a = None ->
     fst (Env_init C conf m)
     = Raise (AttributeError "args" "cli_config")))).
Proof.
  cbn zeta. set (cfg := default empty_config conf).
  assert (Hsetup : resolution C conf m
                   = resolve_project C (after_setup C cfg m)).
  { unfold resolution.
    rewrite (bind_ok _ _ _ _ _ (setup_run C conf m)). reflexivity. }
  split; [| split].
  - intros Hnone. rewrite Env_init_cases, Hsetup, resolve_no_args;
      [reflexivity | exact Hnone].
  - intros a Hargs Hnone.
    rewrite Env_init_cases, Hsetup, (resolve_no_args_project C _ a);
      [reflexivity | exact Hargs | exact Hnone].
  - intros m0 Hres.
    pose proof (resolution_frame C conf m) as Hframe.
    cbn zeta in Hframe. rewrite Hres in Hframe. cbn [snd] in Hframe.
    destruct Hframe as (Hself & _).
    fold cfg in Hself.
    assert (Hva : variant (self m0) = cfg_variant cfg)
      by (rewrite Hself; reflexivity).
    assert (Hsp : spec (self m0) = cfg_spec cfg)
      by (rewrite Hself; reflexivity).
    assert (Har : args (self m0) = cfg_args cfg)
      by (rewrite Hself; reflexivity).
    rewrite Env_init_cases, Hres.
    split; [intros ->; reflexivity |]. intros Hsome. rewrite Hsome.
    unfold nothing_to_build in Hsome.
    destruct (project (self m0)) as [p|] eqn:Hp; [| discriminate].
    split; [| split].
    + intros Hv. apply (build_missing_variant C _ p); congruence.
    + intros Hv Hs. destruct (cfg_variant cfg) as [v|] eqn:Ev; [| congruence].
      apply (build_missing_spec C _ p v); congruence.
    + intros Hv Hs a Ha Hcli.
      destruct (cfg_variant cfg) as [v|] eqn:Ev; [| congruence].
      destruct (cfg_spec cfg) as [sp|] eqn:Es; [| congruence].
      apply (build_missing_cli_config C _ p v sp a); congruence.
Qed.

End Assembly.

(** ** The properties on the sample host *)

Lemma nothing_to_build_returns_witness :
  Sample.run Sample.host (Some (Sample.request PyNone))
  = (Ok tt,
     snd (resolution Sample.host (Some (Sample.request PyNone))
            (Sample.boot Sample.process))).
Proof.
  apply (nothing_to_build_returns Sample.host (Some (Sample.request PyNone))
           (Sample.boot Sample.process)).
  - vm_compute. reflexivity.
  - vm_compute. reflexivity.
Defined.

Lemma build_dir_recreated_once_witness :
  exists sh build deps install before between s,
    (shell (self Sample.built) = Some sh /\
     build_dir (self Sample.built) = Some build /\
     deps_dir (self Sample.built) = Some deps /\
     install_dir (self Sample.built) = Some install) /\
    calls Sample.built
    = (calls (Sample.boot Sample.process) ++ before
       ++ [Project_publish_variable "build_dir" build;
           Project_publish_variable "deps_dir" deps;
           Project_publish_variable "install_dir" install]
       ++ between
       ++ (if bool_decide (build ∈ files s) then [Shell_rm build] else [])
       ++ [Shell_mkdir build])%list /\
    forallb (fun c => negb (build_dir_call c)) (before ++ between) = true /\
    sys Sample.built
    = shell_mkdir Sample.host sh build
        (if bool_decide (build ∈ files s)
         then shell_rm Sample.host sh build s else s).
Proof.
  apply (build_dir_recreated_once Sample.host
           (Some (Sample.request (PyStr "libs/foo")))
           (Sample.boot Sample.process)).
  - vm_compute. reflexivity.
  - vm_compute. reflexivity.
Defined.

Lemma derived_dirs_default_witness :
  (build_dir (self Sample.built) = Some "/work/libs/foo/build" /\
   deps_dir (self Sample.built) = Some "/work/libs/foo/build/deps" /\
   install_dir (self Sample.built) = Some "/work/libs/foo/build/install") /\
  exists cfg root build deps install before after sh s0,
    (config (self Sample.built) = Some cfg /\
     root_dir (self Sample.built) = Some root /\
     build_dir (self Sample.built) = Some build /\
     deps_dir (self Sample.built) = Some deps /\
     install_dir (self Sample.built) = Some install) /\
    (let s1 := shell_cd Sample.host sh root
                 (publish_variable Sample.host "root_dir" root s0) in
     let s2 := publish_variable Sample.host "build_dir" build s1 in
     let s3 := publish_variable Sample.host "deps_dir" deps s2 in
     (cfg !! "build_dir" = None ->
      build = posixpath.abspath (getcwd s1) (posixpath.join root ["build"])) /\
     (cfg !! "deps_dir" = None ->
      deps = posixpath.abspath (getcwd s2) (posixpath.join build ["deps"])) /\
     (cfg !! "install_dir" = None ->
      install
      = posixpath.abspath (getcwd s3) (posixpath.join build ["install"]))) /\
    (posixpath.isabs root = true ->
     cfg !! "build_dir" = None -> cfg !! "deps_dir" = None ->
     cfg !! "install_dir" = None ->
     posixpath.isabs build = true /\ posixpath.isabs deps = true /\
     posixpath.isabs install = true) /\
    (variables (self Sample.built) !! "build_dir" = Some build /\
     variables (self Sample.built) !! "deps_dir" = Some deps /\
     variables (self Sample.built) !! "install_dir" = Some install) /\
    calls Sample.built
    = (calls (Sample.boot Sample.process) ++ before
       ++ [Project_publish_variable "build_dir" build;
           Project_publish_variable "deps_dir" deps;
           Project_publish_variable "install_dir" install]
       ++ after)%list /\
    forallb (fun c => negb (dir_publication c)) (before ++ after) = true.
Proof.
  split; [vm_compute; repeat split |].
  apply (derived_dirs_default Sample.host
           (Some (Sample.request (PyStr "libs/foo")))
           (Sample.boot Sample.process)).
  - vm_compute. reflexivity.
  - vm_compute. reflexivity.
Defined.

Lemma unresolved_after_download_asserts_witness :
  fst Sample.not_fetched = Raise AssertionError /\
  calls (snd Sample.not_fetched)
  = [Shell_cwd; Project_default_project; Project_find_project "bar" [];
     DownloadSource_run {| name := "bar"; path := None |} "main" ".";
     Project_find_project "bar" ["/work"]].
Proof.
  apply (unresolved_after_download_asserts Sample.idle_downloader
           (Sample.request (PyStr "bar")) (Sample.boot Sample.process)
           (Sample.cli (PyStr "bar")) "bar"
           {| name := "bar"; path := None |} Sample.process).
  - reflexivity.
  - reflexivity.
  - discriminate.
  - vm_compute. reflexivity.
  - reflexivity.
  - vm_compute. reflexivity.
  - vm_compute. reflexivity.
Defined.

(** C1, as stated, fails: the first lookup of [bar] is unresolved, the
    download returns, the second lookup is unresolved too, and what the
    constructor raises is an [AssertionError], not a [ConfigurationError]. *)
Lemma unresolved_after_download_no_configuration_error :
  lookups (calls (snd Sample.not_fetched)) = [("bar", []); ("bar", ["/work"])] /\
  In (DownloadSource_run {| name := "bar"; path := None |} "main" ".")
     (calls (snd Sample.not_fetched)) /\
  resolved Sample.idle_downloader
    (find_project Sample.idle_downloader ["/work"] Sample.process "bar"
       ["/work"]) = false /\
  fst Sample.not_fetched = Raise AssertionError /\
  exc_class AssertionError <> "ConfigurationError".
Proof.
  split; [vm_compute; reflexivity |].
  split; [vm_compute; tauto |].
  split; [vm_compute; reflexivity |].
  split; [vm_compute; reflexivity | discriminate].
Qed.

Lemma requested_path_is_the_hint_witness :
  exists first rest later,
    PyStr.split posixpath.sep "libs/foo" = first :: rest /\
    rest <> [] /\
    calls (snd (Env_init Sample.host
                  (Some (Sample.request (PyStr "libs/foo")))
                  (Sample.boot Sample.process)))
    = (calls (Sample.boot Sample.process)
       ++ Shell_cwd
       :: default_lookup (Sample.request (PyStr "libs/foo"))
       ++ Project_find_project (PyStr.last (first :: rest))
            [posixpath.abspath (getcwd (sys (Sample.boot Sample.process)))
               (posixpath.join first rest)]
          :: later)%list.
Proof.
  apply (requested_path_is_the_hint Sample.host
           (Sample.request (PyStr "libs/foo")) (Sample.boot Sample.process)
           (Sample.cli (PyStr "libs/foo")) "libs/foo").
  - reflexivity.
  - reflexivity.
  - reflexivity.
Defined.

(** C2, as stated, fails: for [libs/foo] the one lookup is made with the
    bare name [foo] and the hint [/work/libs/foo], the absolute path of the
    whole name; the absolute path of the directory portion, [/work/libs], is
    not a hint. *)
Lemma directory_portion_is_not_the_hint :
  lookups (calls Sample.built) = [("foo", ["/work/libs/foo"])] /\
  posixpath.abspath (getcwd Sample.process) "libs" = "/work/libs" /\
  ~ In "/work/libs" ["/work/libs/foo"].
Proof.
  split; [vm_compute; reflexivity |].
  split; [vm_compute; reflexivity |].
  intros [H | []]. discriminate.
Qed.

Lemma supplied_project_kept_witness :
  project (self (snd (Env_init Sample.host
                        (Some (Sample.pinned_request PyNone))
                        (Sample.boot Sample.process))))
  = Some Sample.pinned /\
  exists l,
    calls (snd (Env_init Sample.host (Some (Sample.pinned_request PyNone))
                  (Sample.boot Sample.process)))
    = (calls (Sample.boot Sample.process) ++ l)%list /\
    forallb (fun c => negb (lookup_call c)) l = true.
Proof.
  apply (supplied_project_kept Sample.host (Sample.pinned_request PyNone)
           (Sample.boot Sample.process) Sample.pinned (Sample.cli PyNone)
           PyNone).
  - reflexivity.
  - reflexivity.
  - reflexivity.
  - reflexivity.
Defined.

(** C3, as stated, fails: the configuration brings the project [pinned],
    the arguments name [libs/foo], and the constructor looks [foo] up by
    name and ends with [foo], not with the project it was given. *)
Lemma requested_name_replaces_supplied_project :
  cfg_project (Sample.pinned_request (PyStr "libs/foo")) = Some Sample.pinned /\
  lookups (calls (snd Sample.overridden)) = [("foo", ["/work/libs/foo"])] /\
  project (self (snd Sample.overridden))
  = Some {| name := "foo"; path := Some "/work/libs/foo" |} /\
  project (self (snd Sample.overridden)) <> Some Sample.pinned.
Proof.
  split; [reflexivity |].
  split; [vm_compute; reflexivity |].
  split; [vm_compute; reflexivity |].
  vm_compute. discriminate.
Qed.

Lemma attribute_preconditions_witness :
  fst (Env_init Sample.host None (Sample.boot Sample.process))
  = Raise (AttributeError "Env" "args") /\
  fst (Sample.run Sample.host
         (Some (Sample.partial Sample.no_project_attr None None)))
  = Raise (AttributeError "args" "project") /\
  Sample.run Sample.host
    (Some (Sample.partial (Sample.no_cli_config PyNone) None None))
  = (Ok tt,
     snd (resolution Sample.host
            (Some (Sample.partial (Sample.no_cli_config PyNone) None None))
            (Sample.boot Sample.process))) /\
  fst (Sample.run Sample.host
         (Some (Sample.partial (Sample.no_cli_config (PyStr "libs/foo"))
                  None None)))
  = Raise (AttributeError "Env" "variant") /\
  fst (Sample.run Sample.host
         (Some (Sample.partial (Sample.no_cli_config (PyStr "libs/foo"))
                  (Some PyNone) None)))
  = Raise (AttributeError "Env" "spec") /\
  fst (Sample.run Sample.host
         (Some (Sample.partial (Sample.no_cli_config (PyStr "libs/foo"))
                  (Some PyNone) (Some PyNone))))
  = Raise (AttributeError "args" "cli_config").
Proof.
  split; [| split; [| split; [| split; [| split]]]].
  - apply (proj1 (attribute_preconditions Sample.host None
                    (Sample.boot Sample.process))).
    reflexivity.
  - apply (proj1 (proj2 (attribute_preconditions Sample.host
                           (Some (Sample.partial Sample.no_project_attr
                                    None None))
                           (Sample.boot Sample.process)))
             Sample.no_project_attr);
      reflexivity.
  - apply (proj2 (proj2 (attribute_preconditions Sample.host
                           (Some (Sample.partial (Sample.no_cli_config PyNone)
                                    None None))
                           (Sample.boot Sample.process)))).
    + vm_compute. reflexivity.
    + vm_compute. reflexivity.
  - eapply (proj2 (proj2 (attribute_preconditions Sample.host
                            (Some (Sample.partial
                                     (Sample.no_cli_config (PyStr "libs/foo"))
                                     None None))
                            (Sample.boot Sample.process)))).
    + vm_compute. reflexivity.
    + vm_compute. reflexivity.
    + reflexivity.
  - eapply (proj2 (proj2 (attribute_preconditions Sample.host
                            (Some (Sample.partial
                                     (Sample.no_cli_config (PyStr "libs/foo"))
                                     (Some PyNone) None))
                            (Sample.boot Sample.process)))).
    + vm_compute. reflexivity.
    + vm_compute. reflexivity.
    + discriminate.
    + reflexivity.
  - eapply (proj2 (proj2 (attribute_preconditions Sample.host
                            (Some (Sample.partial
                                     (Sample.no_cli_config (PyStr "libs/foo"))
                                     (Some PyNone) (Some PyNone)))
                            (Sample.boot Sample.process)))).
    + vm_compute. reflexivity.
    + vm_compute. reflexivity.
    + discriminate.
    + discriminate.
    + reflexivity.
    + reflexivity.
Defined.

(** C10, as stated, fails: this configuration supplies [args] with a
    [project] field and nothing else, neither [args.cli_config] nor
    [variant] nor [spec], and in a directory with nothing to build the
    constructor returns normally instead of raising [AttributeError]. *)
Lemma missing_attributes_can_complete :
  args_cli_config (Sample.no_cli_config PyNone) = None /\
  cfg_variant (Sample.partial (Sample.no_cli_config PyNone) None None) = None /\
  cfg_spec (Sample.partial (Sample.no_cli_config PyNone) None None) = None /\
  fst (Sample.run Sample.host
         (Some (Sample.partial (Sample.no_cli_config PyNone) None None)))
  = Ok tt.
Proof.
  repeat split. 
Qed.


(** * Further properties *)

(** ** The version-control probe *)

Lemma no_ci_signal_probe environ git_out cwd :
  no_ci_signal environ ->
  _get_git_branch environ git_out cwd = git_probe_branch git_out cwd.
Proof.
  intros (Ht & Hh & Hr). unfold _get_git_branch.
  rewrite (env_truthy_no_value _ _ Ht), (env_truthy_no_value _ _ Hh),
    (env_truthy_no_value _ _ Hr). reflexivity.
Qed.

Lemma find_star_skips pre rest :
  Forall (fun l => starred l = false) pre ->
  find_star_branch (pre ++ rest) = find_star_branch rest.
Proof.
  induction 1 as [|l pre Hl _ IH]; [reflexivity |].
  cbn [app find_star_branch]. unfold starred in Hl. rewrite Hl. exact IH.
Qed.

(** X1: The marked line decides, wherever it stands in the listing: lines
    before it that carry no marker (remote branches, say) are passed over,
    and lines after it are not looked at. *)
Theorem starred_branch_wins environ output cwd pre line post b :
  no_ci_signal environ ->
  PyStr.split LF output = (pre ++ line :: post)%list ->
  Forall (fun l => starred l = false) pre ->
  starred line = true ->
  strip_star line = b -> b <> "" -> b <> "(no branch)" ->
  _get_git_branch environ (Some output) cwd = Ok b.
Proof.
  intros Hci Hsplit Hpre Hline Hb Hne Hsent.
  rewrite (no_ci_signal_probe _ _ _ Hci).
  unfold git_probe_branch, branch_from_git_output.
  rewrite Hsplit, (find_star_skips _ _ Hpre).
  cbn [find_star_branch]. unfold starred in Hline. rewrite Hline, Hb.
  destruct (String.eqb_spec b "(no branch)") as [|_]; [contradiction |].
  destruct b; [contradiction | reflexivity].
Qed.

Lemma starred_branch_wins_witness :
  _get_git_branch (env_of [("GITHUB_HEAD_REF", "")])
    (Some "  remotes/origin/main
* dev
  zeta") (Ok "/work") = Ok "dev".
Proof.
  apply (starred_branch_wins _ _ _ ["  remotes/origin/main"] "* dev"
           ["  zeta"]).
  - split; [left; reflexivity | split; [right | left]; reflexivity].
  - reflexivity.
  - repeat constructor.
  - reflexivity.
  - reflexivity.
  - discriminate.
  - discriminate.
Defined.

Lemma first_listed_skips sentinels rest :
  Forall (fun b => b = "(no branch)") sentinels ->
  first_listed_branch (sentinels ++ rest) = first_listed_branch rest.
Proof.
  induction 1 as [|b l Hb _ IH]; [reflexivity |].
  cbn [app first_listed_branch]. rewrite Hb. exact IH.
Qed.

Lemma startswith_app p s : PyStr.startswith (p ++ s) p = true.
Proof.
  unfold PyStr.startswith. induction p as [|a p IH]; [destruct s; reflexivity |].
  change (String a p ++ s) with (String a (p ++ s)). cbn [String.prefix].
  destruct (ascii_dec a a) as [_ | Hne]; [exact IH | contradiction].
Qed.

Lemma drop_app p s : PyStr.drop (String.length p) (p ++ s) = s.
Proof. induction p as [|a p IH]; [destruct s; reflexivity | exact IH]. Qed.

(** X2: On a detached head (the marked line, if there is one, is the sentinel
    [(no branch)]) the branch is the first entry of the listing that is not
    the sentinel, where the entries are the lines that are not empty, each
    without its stars and surrounding blanks.  An entry [remotes/origin/name]
    gives [name]; any other entry is returned as it is.  Lines are kept or
    dropped before they are stripped, so a line of blanks is an entry, the
    empty one: if it comes first the branch is the empty string, whatever
    follows it. *)
Theorem detached_head_takes_first_listed environ output cwd sentinels b rest :
  no_ci_signal environ ->
  find_star_branch (PyStr.split LF output) = None ->
  map strip_star (filter (fun l => PyStr.truthy l) (PyStr.split LF output))
  = (sentinels ++ b :: rest)%list ->
  Forall (fun x => x = "(no branch)") sentinels ->
  b <> "(no branch)" ->
  (forall name, b = "remotes/origin/" ++ name ->
     _get_git_branch environ (Some output) cwd = Ok name) /\
  (PyStr.startswith b "remotes/origin/" = false ->
     _get_git_branch environ (Some output) cwd = Ok b) /\
  (b = "" -> _get_git_branch environ (Some output) cwd = Ok "").
Proof.
  intros Hci Hstar Hlist Hsent Hb.
  rewrite (no_ci_signal_probe _ _ _ Hci).
  unfold git_probe_branch, branch_from_git_output.
  rewrite Hstar, Hlist, (first_listed_skips _ _ Hsent).
  cbn [first_listed_branch].
  destruct (String.eqb_spec b "(no branch)") as [|_]; [contradiction |].
  split; [| split].
  - intros name ->. rewrite startswith_app, drop_app. reflexivity.
  - intros ->. reflexivity.
  - intros ->. reflexivity.
Qed.

Lemma detached_head_takes_first_listed_witness :
  _get_git_branch (env_of [("HOME", "/root")])
    (Some "* (no branch)
  remotes/origin/feature-x
  remotes/origin/main") (Ok "/work") = Ok "feature-x" /\
  _get_git_branch (env_of [("HOME", "/root")])
    (Some "* (no branch)
   
  remotes/origin/main") (Ok "/work") = Ok "".
Proof.
  split.
  - refine (proj1 (detached_head_takes_first_listed
                     (env_of [("HOME", "/root")]) _ (Ok "/work")
                     ["(no branch)"] "remotes/origin/feature-x"
                     ["remotes/origin/main"] _ _ _ _ _) "feature-x" _).
    + split; [left; reflexivity | split; left; reflexivity].
    + reflexivity.
    + reflexivity.
    + repeat constructor.
    + discriminate.
    + reflexivity.
  - refine (proj2 (proj2 (detached_head_takes_first_listed
                            (env_of [("HOME", "/root")]) _ (Ok "/work")
                            ["(no branch)"] "" ["remotes/origin/main"]
                            _ _ _ _ _)) _).
    + split; [left; reflexivity | split; left; reflexivity].
    + reflexivity.
    + reflexivity.
    + repeat constructor.
    + discriminate.
    + reflexivity.
Defined.

(** ** What setup decides stays decided *)

Section Kept.

Variable C : Collaborators.

(** Lines 82-123 assign none of [branch], [shell], [launch_dir]. *)
Lemma build_keeps m :
  branch (self (snd (build_environment C m))) = branch (self m) /\
  shell (self (snd (build_environment C m))) = shell (self m) /\
  launch_dir (self (snd (build_environment C m))) = launch_dir (self m).
Proof.
  destruct m as [[dr vs br sh ld pj ar va sp cf rd bd dd idr] s ds cs].
  mrun.
  destruct pj as [p|]; [| repeat split].
  destruct va as [v|]; [| repeat split].
  destruct sp as [sp|]; [| repeat split].
  destruct ar as [a|]; [| repeat split].
  destruct (args_cli_config a) as [cli|]; [| repeat split].
  destruct (path p) as [d|]; [| repeat split].
  destruct sh as [sh|]; [| repeat split].
  match goal with
  | |- context [add_library_paths C ?x ?i ?m] =>
      destruct (add_library_paths_run C x i m) as (l2 & s5 & -> & Hl2)
  end.
  mrun.
  match goal with
  | |- context [prepare_build_dir C ?x ?b ?m] =>
      rewrite (prepare_build_dir_run C x b m)
  end.
  mrun. repeat split.
Qed.

Lemma Env_init_keeps conf m :
  branch (self (snd (Env_init C (Some conf) m)))
  = Some (setup_branch conf (sys m)) /\
  shell (self (snd (Env_init C (Some conf) m))) = Some (setup_shell conf) /\
  launch_dir (self (snd (Env_init C (Some conf) m)))
  = Some (setup_launch_dir C conf (sys m)).
Proof.
  pose proof (resolution_frame C (Some conf) m) as Hframe.
  cbn zeta in Hframe. destruct Hframe as (Hself & _).
  change (default empty_config (Some conf)) with conf in Hself.
  rewrite Env_init_cases.
  destruct (resolution C (Some conf) m) as [[[]|e] m0]; cbn [snd] in Hself.
  - destruct (nothing_to_build C (self m0)); cbn [snd].
    + rewrite Hself. repeat split.
    + destruct (build_keeps m0) as (-> & -> & ->).
      rewrite Hself. repeat split.
  - cbn [snd]. rewrite Hself. repeat split.
Qed.

(** X3: A non-empty branch given in the configuration is the [branch]
    attribute at the end of every run, verbatim, whatever the CI variables
    and the git listing of the process are: nothing after line 36 assigns
    it.  Line 36 tests truth, not presence: without a branch, or with an
    empty one, the attribute is what [_get_git_branch] returns in the
    process the constructor starts in. *)
Theorem supplied_branch_is_kept conf m :
  (forall b, cfg_branch conf = Some b -> b <> "" ->
     branch (self (snd (Env_init C (Some conf) m))) = Some b) /\
  (cfg_branch conf = None \/ cfg_branch conf = Some "" ->
     exists b,
       _get_git_branch (environ (sys m)) (git_output (sys m))
         (os_getcwd (sys m)) = Ok b /\
       branch (self (snd (Env_init C (Some conf) m))) = Some b).
Proof.
  destruct (Env_init_keeps conf m) as (-> & _). unfold setup_branch. split.
  - intros b -> Hb. destruct b; [contradiction | reflexivity].
  - intros Hnone. exists (detected_branch (sys m)).
    split; [apply detection_returns |].
    destruct Hnone as [-> | ->]; reflexivity.
Qed.

(** X4: A shell given in the configuration is the shell of the environment, and
    the [dryrun] key does not reach it; without one the constructor makes
    [Shell(dryrun)], with [dryrun] false unless the configuration says
    otherwise.  Nothing later in the run replaces it. *)
Theorem supplied_shell_is_kept conf m :
  (forall sh, cfg_shell conf = Some sh ->
     shell (self (snd (Env_init C (Some conf) m))) = Some sh) /\
  (cfg_shell conf = None ->
     (forall d, cfg_dryrun conf = Some d ->
        shell (self (snd (Env_init C (Some conf) m)))
        = Some {| sh_dryrun := d |}) /\
     (cfg_dryrun conf = None ->
        shell (self (snd (Env_init C (Some conf) m)))
        = Some {| sh_dryrun := false |})).
Proof.
  destruct (Env_init_keeps conf m) as (_ & -> & _). unfold setup_shell. split.
  - intros sh ->. reflexivity.
  - intros ->. split; [intros d -> | intros ->]; reflexivity.
Qed.

(** X5: After a run that returns with a resolved project the search scope
    the constructor has written is, in this order, the launch directory (the
    absolute path of what [shell.cwd()] answered before anything moved),
    [build_dir], [root_dir] and [deps_dir]; [install_dir] is not put in it.
    The collaborators read [Project.search_dirs]; they are taken not to
    write it. *)
Theorem search_scope_after_assembly conf m m' :
  Env_init C (Some conf) m = (Ok tt, m') ->
  nothing_to_build C (self m') = false ->
  exists sh launch build root deps,
    (shell (self m') = Some sh /\ launch_dir (self m') = Some launch /\
     build_dir (self m') = Some build /\ root_dir (self m') = Some root /\
     deps_dir (self m') = Some deps) /\
    launch = posixpath.abspath (getcwd (sys m)) (shell_cwd C sh (sys m)) /\
    search_dirs m' = [launch; build; root; deps].
Proof.
  intros Hrun Hsome.
  destruct (Env_init_keeps conf m) as (_ & Hsh & Hld).
  rewrite Hrun in Hsh, Hld. cbn [snd] in Hsh, Hld.
  rewrite Env_init_cases in Hrun.
  destruct (resolution C (Some conf) m) as [[[]|e] m0] eqn:Hres;
    [| discriminate].
  pose proof (resolution_frame C (Some conf) m) as Hframe.
  cbn zeta in Hframe. rewrite Hres in Hframe. cbn [snd] in Hframe.
  destruct Hframe as (_ & Hdirs & _).
  change (default empty_config (Some conf)) with conf in Hdirs.
  destruct (nothing_to_build C (self m0)) eqn:Hnone.
  { injection Hrun as <-. congruence. }
  apply build_environment_ok in Hrun
    as (v & sp & cli & cfg & root & build & deps & install & sh & l2 & s6
        & (_ & Hr & Hb & Hd & _) & _ & _ & _ & _ & Hscope & _).
  exists (setup_shell conf), (setup_launch_dir C conf (sys m)),
    build, root, deps.
  split; [repeat split; assumption |].
  split; [reflexivity |].
  rewrite Hscope, Hdirs. reflexivity.
Qed.

End Kept.

Lemma supplied_branch_is_kept_witness :
  branch (self (snd (Env_init Sample.host
                       (Some (Cases.equipped (PyStr "libs/foo")))
                       (Sample.boot Sample.process))))
  = Some "release" /\
  (exists b,
     _get_git_branch (environ (sys (Sample.boot Sample.process)))
       (git_output (sys (Sample.boot Sample.process)))
       (os_getcwd (sys (Sample.boot Sample.process))) = Ok b /\
     branch (self (snd (Env_init Sample.host
                          (Some (Sample.request (PyStr "libs/foo")))
                          (Sample.boot Sample.process))))
     = Some b).
Proof.
  split.
  - apply (proj1 (supplied_branch_is_kept Sample.host
                    (Cases.equipped (PyStr "libs/foo"))
                    (Sample.boot Sample.process)));
      [reflexivity | discriminate].
  - apply (proj2 (supplied_branch_is_kept Sample.host
                    (Sample.request (PyStr "libs/foo"))
                    (Sample.boot Sample.process))).
    left. reflexivity.
Defined.

Lemma supplied_shell_is_kept_witness :
  shell (self (snd (Env_init Sample.host
                      (Some (Cases.equipped (PyStr "libs/foo")))
                      (Sample.boot Sample.process))))
  = Some {| sh_dryrun := true |} /\
  shell (self (snd (Env_init Sample.host
                      (Some (Sample.request (PyStr "libs/foo")))
                      (Sample.boot Sample.process))))
  = Some {| sh_dryrun := false |}.
Proof.
  split.
  - apply (proj1 (supplied_shell_is_kept Sample.host
                    (Cases.equipped (PyStr "libs/foo"))
                    (Sample.boot Sample.process))).
    reflexivity.
  - apply (proj2 (supplied_shell_is_kept Sample.host
                    (Sample.request (PyStr "libs/foo"))
                    (Sample.boot Sample.process))); reflexivity.
Defined.

Lemma search_scope_after_assembly_witness :
  exists sh launch build root deps,
    (shell (self Sample.built) = Some sh /\
     launch_dir (self Sample.built) = Some launch /\
     build_dir (self Sample.built) = Some build /\
     root_dir (self Sample.built) = Some root /\
     deps_dir (self Sample.built) = Some deps) /\
    launch = posixpath.abspath (getcwd (sys (Sample.boot Sample.process)))
               (shell_cwd Sample.host sh (sys (Sample.boot Sample.process))) /\
    search_dirs Sample.built = [launch; build; root; deps].
Proof.
  apply (search_scope_after_assembly Sample.host
           (Sample.request (PyStr "libs/foo")) (Sample.boot Sample.process)).
  - vm_compute. reflexivity.
  - vm_compute. reflexivity.
Defined.

(** ** Names, separators and hints *)

Lemma split_no_sep c s :
  existsb (Ascii.eqb c) (list_ascii_of_string s) = false ->
  PyStr.split c s = [s].
Proof.
  induction s as [|a r IH]; [reflexivity |].
  cbn [list_ascii_of_string existsb]. rewrite split_cons.
  intros H. apply orb_false_elim in H as [Hca Hr].
  rewrite (IH Hr).
  destruct (Ascii.eqb_spec a c) as [-> | _]; [| reflexivity].
  rewrite Ascii.eqb_refl in Hca. discriminate.
Qed.

Lemma last_cons_cons (a b : string) l :
  PyStr.last (a :: b :: l) = PyStr.last (b :: l).
Proof. reflexivity. Qed.

(** The last field of a string that ends with the separator is empty. *)
Lemma split_trailing_sep c s :
  PyStr.last (PyStr.split c (s ++ String c "")) = "" /\
  exists first second more,
    PyStr.split c (s ++ String c "") = first :: second :: more.
Proof.
  induction s as [|a r (IHlast & f & g & more & IH)].
  - change ("" ++ String c "") with (String c "").
    rewrite split_cons, Ascii.eqb_refl. split; [reflexivity |].
    eexists _, _, _. reflexivity.
  - change (String a r ++ String c "") with (String a (r ++ String c "")).
    rewrite split_cons, IH. rewrite IH in IHlast.
    destruct (Ascii.eqb a c).
    + split; [exact IHlast | eexists _, _, _; reflexivity].
    + split; [exact IHlast | eexists _, _, _; reflexivity].
Qed.

Lemma join_empty_head b p : posixpath.join "" (b :: p) = posixpath.join b p.
Proof.
  unfold posixpath.join. cbn [fold_left PyStr.truthy negb orb].
  destruct (PyStr.startswith b "/"); reflexivity.
Qed.

Section Requested.

Variable C : Collaborators.

(** The first lookup of a run that was given a name. *)
Lemma requested_first_lookup conf m a project_name :
  cfg_args conf = Some a ->
  args_project a = Some (PyStr project_name) ->
  project_name <> "" ->
  exists later,
    calls (snd (Env_init C (Some conf) m))
    = (calls m ++ Shell_cwd :: default_lookup conf
       ++ Project_find_project (requested_name project_name)
            (requested_hints (getcwd (sys m)) project_name)
          :: later)%list.
Proof.
  intros Hargs Hproj Hne.
  destruct (after_default_setup C conf m) as (Hs & Hd & Hc & Hb & Ha & _).
  cbn zeta in *.
  set (m1 := after_default C (after_setup C conf m)) in *.
  destruct (locate_first_call C project_name m1) as (later0 & Hfirst).
  rewrite Hs, Hc, <- app_assoc in Hfirst.
  assert (Hres : resolution C (Some conf) m = locate C project_name m1).
  { unfold resolution.
    rewrite (bind_ok _ _ _ _ _ (setup_run C (Some conf) m)).
    change (default empty_config (Some conf)) with conf.
    apply (resolve_requested C _ a);
      [exact Hargs | exact Hproj
       | destruct project_name; [contradiction | reflexivity]]. }
  rewrite Env_init_cases, Hres.
  destruct (locate C project_name m1) as [[[]|e] m2]; cbn [snd] in Hfirst.
  - destruct (nothing_to_build C (self m2)).
    + exists later0. exact Hfirst.
    + destruct (build_frame C m2) as (_ & l & Hl & _).
      exists (later0 ++ l)%list.
      rewrite Hl, Hfirst, <- !app_assoc. reflexivity.
  - exists later0. exact Hfirst.
Qed.

(** X6: A requested name without a separator is looked up as it is, with no
    hint at all: the search goes by the search scope alone. *)
Theorem plain_name_has_no_hint conf m a project_name :
  cfg_args conf = Some a ->
  args_project a = Some (PyStr project_name) ->
  project_name <> "" ->
  contains_sep project_name = false ->
  exists later,
    calls (snd (Env_init C (Some conf) m))
    = (calls m ++ Shell_cwd :: default_lookup conf
       ++ Project_find_project project_name [] :: later)%list.
Proof.
  intros Hargs Hproj Hne Hsep.
  destruct (requested_first_lookup conf m a project_name Hargs Hproj Hne)
    as (later & Hlog).
  unfold requested_name, requested_hints in Hlog.
  rewrite (split_no_sep _ _ Hsep) in Hlog.
  exists later. exact Hlog.
Qed.

(** X7: A requested name that ends with the separator is looked up under the
    empty name: the last segment of the split is what follows the last
    separator, and nothing follows it. *)
Theorem trailing_separator_gives_empty_name conf m a stem :
  cfg_args conf = Some a ->
  args_project a = Some (PyStr (stem ++ "/")) ->
  exists hint later,
    calls (snd (Env_init C (Some conf) m))
    = (calls m ++ Shell_cwd :: default_lookup conf
       ++ Project_find_project "" [hint] :: later)%list.
Proof.
  intros Hargs Hproj.
  destruct (requested_first_lookup conf m a (stem ++ "/") Hargs Hproj)
    as (later & Hlog).
  { destruct stem; discriminate. }
  destruct (split_trailing_sep posixpath.sep stem)
    as (Hlast & f & g & more & Hsplit).
  unfold requested_name, requested_hints in Hlog.
  change (String posixpath.sep "") with "/" in Hlast, Hsplit.
  rewrite Hlast, Hsplit in Hlog.
  eexists _, later. exact Hlog.
Qed.

(** X8: A leading separator is lost: [split] gives an empty first part, which
    [os.path.join] drops, so a requested absolute path [/x/y] gets the same
    bare name and the same hint as the relative [x/y], a path under the
    current directory. *)
Theorem leading_separator_is_dropped conf m a tail first rest :
  cfg_args conf = Some a ->
  args_project a = Some (PyStr (String "/" tail)) ->
  PyStr.split posixpath.sep tail = first :: rest ->
  exists later,
    calls (snd (Env_init C (Some conf) m))
    = (calls m ++ Shell_cwd :: default_lookup conf
       ++ Project_find_project (PyStr.last (first :: rest))
            [posixpath.abspath (getcwd (sys m)) (posixpath.join first rest)]
          :: later)%list.
Proof.
  intros Hargs Hproj Hsplit.
  destruct (requested_first_lookup conf m a (String "/" tail) Hargs Hproj)
    as (later & Hlog); [discriminate |].
  unfold requested_name, requested_hints in Hlog.
  rewrite split_cons in Hlog.
  change (Ascii.eqb "/" posixpath.sep) with true in Hlog.
  cbn iota in Hlog. rewrite Hsplit in Hlog.
  rewrite join_empty_head, last_cons_cons in Hlog.
  exists later. exact Hlog.
Qed.

End Requested.

(** ** Found, fetched, or neither *)

Section Fetch.

Variable C : Collaborators.

(** Lines 66-77 when the project is found on disk. *)
Lemma locate_local project_name m found :
  found = find_project C (search_dirs m) (sys m)
            (requested_name project_name)
            (requested_hints (getcwd (sys m)) project_name) ->
  path_truthy found = true ->
  locate C project_name m
  = (Ok tt,
     {| self := set_project (Some found) (self m); sys := sys m;
        search_dirs := search_dirs m;
        calls := calls m
                 ++ [Project_find_project (requested_name project_name)
                       (requested_hints (getcwd (sys m)) project_name)] |}).
Proof.
  rewrite locate_hints.
  destruct m as [[dr vs b sh ld pj ar va sp cf rd bd dd idr] s ds cs].
  cbn [self sys search_dirs calls].
  intros Hfound Hpath. mrun. rewrite <- Hfound, Hpath. reflexivity.
Qed.

(** Lines 66-71 when the download raises. *)
Lemma locate_download_fails project_name m found br e :
  found = find_project C (search_dirs m) (sys m)
            (requested_name project_name)
            (requested_hints (getcwd (sys m)) project_name) ->
  path_truthy found = false ->
  branch (self m) = Some br ->
  download_run C found br "." (sys m) = Raise e ->
  fst (locate C project_name m) = Raise e /\
  self (snd (locate C project_name m)) = self m /\
  calls (snd (locate C project_name m))
  = (calls m
     ++ [Project_find_project (requested_name project_name)
           (requested_hints (getcwd (sys m)) project_name);
         DownloadSource_run found br "."])%list.
Proof.
  rewrite locate_hints.
  destruct m as [[dr vs b sh ld pj ar va sp cf rd bd dd idr] s ds cs].
  cbn [self sys search_dirs calls branch].
  intros Hfound Hpath -> Hdl. mrun.
  rewrite <- Hfound, Hpath. cbn [negb]. mrun. rewrite Hdl.
  rewrite <- !app_assoc. repeat split.
Qed.

(** Lines 66-77 when the download brings the project. *)
Lemma locate_downloads project_name m found br s' again :
  found = find_project C (search_dirs m) (sys m)
            (requested_name project_name)
            (requested_hints (getcwd (sys m)) project_name) ->
  path_truthy found = false ->
  branch (self m) = Some br ->
  download_run C found br "." (sys m) = Ok s' ->
  again = find_project C (search_dirs m) s' (name found)
            [posixpath.abspath (getcwd s') "."] ->
  resolved C again = true ->
  locate C project_name m
  = (Ok tt,
     {| self := set_project (Some again) (self m); sys := s';
        search_dirs := search_dirs m;
        calls := calls m
                 ++ [Project_find_project (requested_name project_name)
                       (requested_hints (getcwd (sys m)) project_name);
                     DownloadSource_run found br ".";
                     Project_find_project (name found)
                       [posixpath.abspath (getcwd s') "."]] |}).
Proof.
  rewrite locate_hints.
  destruct m as [[dr vs b sh ld pj ar va sp cf rd bd dd idr] s ds cs].
  cbn [self sys search_dirs calls branch].
  intros Hfound Hpath -> Hdl Hagain Hres. mrun.
  rewrite <- Hfound, Hpath. cbn [negb]. mrun. rewrite Hdl. mrun.
  rewrite <- Hagain, Hres. rewrite <- !app_assoc. reflexivity.
Qed.

(** The run of a constructor whose resolution is one [locate]. *)
Lemma requested_resolution conf m a project_name :
  cfg_args conf = Some a ->
  args_project a = Some (PyStr project_name) ->
  project_name <> "" ->
  resolution C (Some conf) m
  = locate C project_name (after_default C (after_setup C conf m)).
Proof.
  intros Hargs Hproj Hne. unfold resolution.
  rewrite (bind_ok _ _ _ _ _ (setup_run C (Some conf) m)).
  change (default empty_config (Some conf)) with conf.
  apply (resolve_requested C _ a);
    [exact Hargs | exact Hproj
     | destruct project_name; [contradiction | reflexivity]].
Qed.

(** What follows a resolution that returned. *)
Lemma after_resolution conf m m0 :
  resolution C conf m = (Ok tt, m0) ->
  project (self (snd (Env_init C conf m))) = project (self m0) /\
  exists later,
    calls (snd (Env_init C conf m)) = (calls m0 ++ later)%list /\
    forallb (fun c => negb (lookup_call c)) later = true.
Proof.
  intros Hres. rewrite Env_init_cases, Hres.
  destruct (nothing_to_build C (self m0)).
  - split; [reflexivity |]. exists []. split; [| reflexivity].
    symmetry. apply app_nil_r.
  - exact (build_frame C m0).
Qed.

(** X9: A project that the first lookup finds on disk is the project of the
    environment; nothing is downloaded and there is no second lookup. *)
Theorem local_project_is_not_downloaded conf m a project_name found :
  cfg_args conf = Some a ->
  args_project a = Some (PyStr project_name) ->
  project_name <> "" ->
  found = find_project C [setup_launch_dir C conf (sys m)] (sys m)
            (requested_name project_name)
            (requested_hints (getcwd (sys m)) project_name) ->
  path_truthy found = true ->
  project (self (snd (Env_init C (Some conf) m))) = Some found /\
  exists later,
    calls (snd (Env_init C (Some conf) m))
    = (calls m ++ Shell_cwd :: default_lookup conf
       ++ Project_find_project (requested_name project_name)
            (requested_hints (getcwd (sys m)) project_name)
          :: later)%list /\
    forallb (fun c => negb (lookup_call c)) later = true.
Proof.
  intros Hargs Hproj Hne Hfound Hpath.
  destruct (after_default_setup C conf m) as (Hs & Hd & Hc & Hb & Ha & _).
  cbn zeta in *.
  pose proof (requested_resolution conf m a project_name Hargs Hproj Hne)
    as Hres.
  set (m1 := after_default C (after_setup C conf m)) in *.
  rewrite (locate_local project_name m1 found) in Hres;
    [| rewrite Hs, Hd; exact Hfound | exact Hpath].
  destruct (after_resolution _ _ _ Hres) as (Hp & later & Hlog & Hquiet).
  cbn [self calls project set_project] in Hp, Hlog.
  split; [exact Hp |]. exists later. split; [| exact Hquiet].
  rewrite Hlog, Hc, Hs, <- !app_assoc. reflexivity.
Qed.

(** X10: An exception of the download is not caught: the constructor
    raises it, after the lookup and the download and nothing else, and it
    has assigned no attribute since default discovery: [project] is not
    set. *)
Theorem download_failure_propagates conf m a project_name found e :
  cfg_args conf = Some a ->
  args_project a = Some (PyStr project_name) ->
  project_name <> "" ->
  found = find_project C [setup_launch_dir C conf (sys m)] (sys m)
            (requested_name project_name)
            (requested_hints (getcwd (sys m)) project_name) ->
  path_truthy found = false ->
  download_run C found (setup_branch conf (sys m)) "." (sys m) = Raise e ->
  fst (Env_init C (Some conf) m) = Raise e /\
  self (snd (Env_init C (Some conf) m))
  = self (after_default C (after_setup C conf m)) /\
  calls (snd (Env_init C (Some conf) m))
  = (calls m ++ Shell_cwd :: default_lookup conf
     ++ [Project_find_project (requested_name project_name)
           (requested_hints (getcwd (sys m)) project_name);
         DownloadSource_run found (setup_branch conf (sys m)) "."])%list.
Proof.
  intros Hargs Hproj Hne Hfound Hpath Hdl.
  destruct (after_default_setup C conf m) as (Hs & Hd & Hc & Hb & Ha & _).
  cbn zeta in *.
  rewrite Env_init_cases,
    (requested_resolution conf m a project_name Hargs Hproj Hne).
  set (m1 := after_default C (after_setup C conf m)) in *.
  destruct (locate_download_fails project_name m1 found
              (setup_branch conf (sys m)) e) as (Hr & Hself & Hlog).
  - rewrite Hs, Hd. exact Hfound.
  - exact Hpath.
  - exact Hb.
  - rewrite Hs. exact Hdl.
  - destruct (locate C project_name m1) as [r m2].
    cbn [fst snd] in Hr, Hself, Hlog. subst r. cbn [fst snd].
    split; [reflexivity |]. split; [exact Hself |].
    rewrite Hlog, Hc, Hs, <- !app_assoc. reflexivity.
Qed.

(** X11: When the first lookup finds nothing on disk, the download returns and
    the second lookup is resolved, the project of the environment is the one
    the second lookup returned; that lookup is made by the project's name
    with one hint, the absolute path of [.] in the process the download
    left, and it is the last lookup of the run. *)
Theorem downloaded_project_is_used conf m a project_name found s' again :
  cfg_args conf = Some a ->
  args_project a = Some (PyStr project_name) ->
  project_name <> "" ->
  found = find_project C [setup_launch_dir C conf (sys m)] (sys m)
            (requested_name project_name)
            (requested_hints (getcwd (sys m)) project_name) ->
  path_truthy found = false ->
  download_run C found (setup_branch conf (sys m)) "." (sys m) = Ok s' ->
  again = find_project C [setup_launch_dir C conf (sys m)] s' (name found)
            [posixpath.abspath (getcwd s') "."] ->
  resolved C again = true ->
  project (self (snd (Env_init C (Some conf) m))) = Some again /\
  exists later,
    calls (snd (Env_init C (Some conf) m))
    = (calls m ++ Shell_cwd :: default_lookup conf
       ++ [Project_find_project (requested_name project_name)
             (requested_hints (getcwd (sys m)) project_name);
           DownloadSource_run found (setup_branch conf (sys m)) ".";
           Project_find_project (name found)
             [posixpath.abspath (getcwd s') "."]]
       ++ later)%list /\
    forallb (fun c => negb (lookup_call c)) later = true.
Proof.
  intros Hargs Hproj Hne Hfound Hpath Hdl Hagain Hresolved.
  destruct (after_default_setup C conf m) as (Hs & Hd & Hc & Hb & Ha & _).
  cbn zeta in *.
  pose proof (requested_resolution conf m a project_name Hargs Hproj Hne)
    as Hres.
  set (m1 := after_default C (after_setup C conf m)) in *.
  rewrite (locate_downloads project_name m1 found
             (setup_branch conf (sys m)) s' again) in Hres;
    [| rewrite Hs, Hd; exact Hfound | exact Hpath | exact Hb
     | rewrite Hs; exact Hdl | rewrite Hd; exact Hagain | exact Hresolved].
  destruct (after_resolution _ _ _ Hres) as (Hp & later & Hlog & Hquiet).
  cbn [self calls project set_project] in Hp, Hlog.
  split; [exact Hp |]. exists later. split; [| exact Hquiet].
  rewrite Hlog, Hc, Hs, <- !app_assoc. reflexivity.
Qed.

End Fetch.


Lemma plain_name_has_no_hint_witness :
  exists later,
    calls (snd (Env_init Sample.host (Some (Sample.request (PyStr "bar")))
                  (Sample.boot Sample.process)))
    = (calls (Sample.boot Sample.process)
       ++ Shell_cwd :: default_lookup (Sample.request (PyStr "bar"))
       ++ Project_find_project "bar" [] :: later)%list.
Proof.
  apply (plain_name_has_no_hint Sample.host (Sample.request (PyStr "bar"))
           (Sample.boot Sample.process) (Sample.cli (PyStr "bar")) "bar").
  - reflexivity.
  - reflexivity.
  - discriminate.
  - reflexivity.
Defined.

Lemma trailing_separator_gives_empty_name_witness :
  exists hint later,
    calls (snd (Env_init Sample.host
                  (Some (Sample.request (PyStr "libs/foo/")))
                  (Sample.boot Sample.process)))
    = (calls (Sample.boot Sample.process)
       ++ Shell_cwd :: default_lookup (Sample.request (PyStr "libs/foo/"))
       ++ Project_find_project "" [hint] :: later)%list.
Proof.
  apply (trailing_separator_gives_empty_name Sample.host
           (Sample.request (PyStr "libs/foo/")) (Sample.boot Sample.process)
           (Sample.cli (PyStr "libs/foo/")) "libs/foo").
  - reflexivity.
  - reflexivity.
Defined.

Lemma leading_separator_is_dropped_witness :
  exists later,
    calls (snd (Env_init Sample.host
                  (Some (Sample.request (PyStr "/libs/foo")))
                  (Sample.boot Sample.process)))
    = (calls (Sample.boot Sample.process)
       ++ Shell_cwd :: default_lookup (Sample.request (PyStr "/libs/foo"))
       ++ Project_find_project (PyStr.last ["libs"; "foo"])
            [posixpath.abspath (getcwd (sys (Sample.boot Sample.process)))
               (posixpath.join "libs" ["foo"])]
          :: later)%list.
Proof.
  apply (leading_separator_is_dropped Sample.host
           (Sample.request (PyStr "/libs/foo")) (Sample.boot Sample.process)
           (Sample.cli (PyStr "/libs/foo")) "libs/foo" "libs" ["foo"]).
  - reflexivity.
  - reflexivity.
  - reflexivity.
Defined.

Lemma local_project_is_not_downloaded_witness :
  project (self Sample.built)
  = Some {| name := "foo"; path := Some "/work/libs/foo" |} /\
  exists later,
    calls Sample.built
    = (calls (Sample.boot Sample.process)
       ++ Shell_cwd :: default_lookup (Sample.request (PyStr "libs/foo"))
       ++ Project_find_project (requested_name "libs/foo")
            (requested_hints (getcwd (sys (Sample.boot Sample.process)))
               "libs/foo")
          :: later)%list /\
    forallb (fun c => negb (lookup_call c)) later = true.
Proof.
  apply (local_project_is_not_downloaded Sample.host
           (Sample.request (PyStr "libs/foo")) (Sample.boot Sample.process)
           (Sample.cli (PyStr "libs/foo")) "libs/foo").
  - reflexivity.
  - reflexivity.
  - discriminate.
  - vm_compute. reflexivity.
  - reflexivity.
Defined.

Lemma download_failure_propagates_witness :
  fst (Env_init Cases.failing_downloader
         (Some (Sample.request (PyStr "bar"))) (Sample.boot Sample.process))
  = Raise (Propagated "CalledProcessError") /\
  self (snd (Env_init Cases.failing_downloader
               (Some (Sample.request (PyStr "bar")))
               (Sample.boot Sample.process)))
  = self (after_default Cases.failing_downloader
            (after_setup Cases.failing_downloader
               (Sample.request (PyStr "bar")) (Sample.boot Sample.process))) /\
  calls (snd (Env_init Cases.failing_downloader
                (Some (Sample.request (PyStr "bar")))
                (Sample.boot Sample.process)))
  = (calls (Sample.boot Sample.process)
     ++ Shell_cwd :: default_lookup (Sample.request (PyStr "bar"))
     ++ [Project_find_project (requested_name "bar")
           (requested_hints (getcwd (sys (Sample.boot Sample.process))) "bar");
         DownloadSource_run Cases.bar_wanted
           (setup_branch (Sample.request (PyStr "bar"))
              (sys (Sample.boot Sample.process))) "."])%list.
Proof.
  apply (download_failure_propagates Cases.failing_downloader
           (Sample.request (PyStr "bar")) (Sample.boot Sample.process)
           (Sample.cli (PyStr "bar")) "bar" Cases.bar_wanted).
  - reflexivity.
  - reflexivity.
  - discriminate.
  - vm_compute. reflexivity.
  - reflexivity.
  - reflexivity.
Defined.

Lemma downloaded_project_is_used_witness :
  project (self (snd (Env_init Sample.host
                        (Some (Sample.request (PyStr "bar")))
                        (Sample.boot Sample.process))))
  = Some Cases.bar_fetched /\
  exists later,
    calls (snd (Env_init Sample.host (Some (Sample.request (PyStr "bar")))
                  (Sample.boot Sample.process)))
    = (calls (Sample.boot Sample.process)
       ++ Shell_cwd :: default_lookup (Sample.request (PyStr "bar"))
       ++ [Project_find_project (requested_name "bar")
             (requested_hints (getcwd (sys (Sample.boot Sample.process)))
                "bar");
           DownloadSource_run Cases.bar_wanted
             (setup_branch (Sample.request (PyStr "bar"))
                (sys (Sample.boot Sample.process))) ".";
           Project_find_project (name Cases.bar_wanted)
             [posixpath.abspath (getcwd Cases.fetched) "."]]
       ++ later)%list /\
    forallb (fun c => negb (lookup_call c)) later = true.
Proof.
  apply (downloaded_project_is_used Sample.host
           (Sample.request (PyStr "bar")) (Sample.boot Sample.process)
           (Sample.cli (PyStr "bar")) "bar" Cases.bar_wanted Cases.fetched
           Cases.bar_fetched).
  - reflexivity.
  - reflexivity.
  - discriminate.
  - vm_compute. reflexivity.
  - reflexivity.
  - vm_compute. reflexivity.
  - vm_compute. reflexivity.
  - reflexivity.
Defined.

(** ** Default discovery *)

Section Discovery.

Variable C : Collaborators.

(** Whatever lines 54-77 do, they start from the state line 52 left and
    make no default discovery of their own. *)
Lemma resolve_after_default m :
  exists l,
    calls (snd (resolve_project C m)) = (calls (after_default C m) ++ l)%list /\
    forallb (fun c => negb (default_call c)) l = true.
Proof.
  destruct m as [[dr vs br sh ld pj ar va sp cf rd bd dd idr] s ds cs].
  unfold resolve_project, locate, after_default. unfold_monad. cbn.
  repeat (case_step; cbn).
  all: eexists; split;
    [rewrite <- ?app_assoc;
     first [reflexivity | symmetry; apply app_nil_r] | reflexivity].
Qed.

Lemma lookup_free_default_free l :
  forallb (fun c => negb (lookup_call c)) l = true ->
  forallb (fun c => negb (default_call c)) l = true.
Proof.
  apply forallb_weaken. intros []; (discriminate || reflexivity).
Qed.

(** X12: Default discovery depends on the configuration alone, not on the
    command line: without a project in the configuration
    [Project.default_project()] is called once, right after [shell.cwd()]
    and before anything is looked up, also when the arguments name a
    project or are missing; with a project in the configuration it is not
    called at all. *)
Theorem default_discovery_runs_first conf m :
  (cfg_project conf = None ->
   exists later,
     calls (snd (Env_init C (Some conf) m))
     = (calls m ++ [Shell_cwd; Project_default_project] ++ later)%list /\
     forallb (fun c => negb (default_call c)) later = true) /\
  (forall p, cfg_project conf = Some p ->
   exists l,
     calls (snd (Env_init C (Some conf) m)) = (calls m ++ l)%list /\
     forallb (fun c => negb (default_call c)) l = true).
Proof.
  destruct (after_default_setup C conf m) as (_ & _ & Hc & _).
  cbn zeta in Hc.
  destruct (resolve_after_default (after_setup C conf m)) as (l & Hl & Hfree).
  rewrite Hc in Hl.
  assert (Hrun : exists later,
             calls (snd (Env_init C (Some conf) m))
             = (calls m ++ Shell_cwd :: default_lookup conf ++ later)%list /\
             forallb (fun c => negb (default_call c)) later = true).
  { rewrite Env_init_cases. unfold resolution.
    rewrite (bind_ok _ _ _ _ _ (setup_run C (Some conf) m)).
    change (default empty_config (Some conf)) with conf.
    destruct (resolve_project C (after_setup C conf m)) as [[[]|e] m0];
      cbn [snd] in Hl.
    - destruct (nothing_to_build C (self m0)).
      + exists l. split; [| exact Hfree].
        cbn [snd]. rewrite Hl, <- !app_assoc. reflexivity.
      + destruct (build_frame C m0) as (_ & l' & Hl' & Hquiet).
        exists (l ++ l')%list. split.
        * rewrite Hl', Hl, <- !app_assoc. reflexivity.
        * rewrite forallb_app, Hfree, (lookup_free_default_free _ Hquiet).
          reflexivity.
    - exists l. split; [| exact Hfree].
      cbn [snd]. rewrite Hl, <- !app_assoc. reflexivity. }
  destruct Hrun as (later & Hlog & Hlater). unfold default_lookup in Hlog.
  split.
  - intros Hnone. rewrite Hnone in Hlog. exists later.
    split; [exact Hlog | exact Hlater].
  - intros p Hp. rewrite Hp in Hlog. exists (Shell_cwd :: later).
    split; [exact Hlog | exact Hlater].
Qed.

End Discovery.

Lemma default_discovery_runs_first_witness :
  (exists later,
     calls (snd (Env_init Sample.host
                   (Some (Sample.request (PyStr "libs/foo")))
                   (Sample.boot Sample.process)))
     = (calls (Sample.boot Sample.process)
        ++ [Shell_cwd; Project_default_project] ++ later)%list /\
     forallb (fun c => negb (default_call c)) later = true) /\
  (exists l,
     calls (snd (Env_init Sample.host
                   (Some (Sample.pinned_request (PyStr "libs/foo")))
                   (Sample.boot Sample.process)))
     = (calls (Sample.boot Sample.process) ++ l)%list /\
     forallb (fun c => negb (default_call c)) l = true).
Proof.
  split.
  - apply (proj1 (default_discovery_runs_first Sample.host
                    (Sample.request (PyStr "libs/foo"))
                    (Sample.boot Sample.process))).
    reflexivity.
  - apply (proj2 (default_discovery_runs_first Sample.host
                    (Sample.pinned_request (PyStr "libs/foo"))
                    (Sample.boot Sample.process)) Sample.pinned).
    reflexivity.
Defined.

(** ** The source directory and the variable store *)

Section Root.

Variable C : Collaborators.

(** Line 87 in a run of lines 82-123 that returns. *)
Lemma build_environment_root m0 m' :
  build_environment C m0 = (Ok tt, m') ->
  exists p d,
    project (self m0) = Some p /\ path p = Some d /\
    root_dir (self m') = Some (posixpath.abspath (getcwd (sys m0)) d).
Proof.
  destruct m0 as [[dr vs br sh ld pj ar va sp cf rd bd dd idr] s ds cs].
  mrun.
  destruct pj as [p|]; [| discriminate].
  destruct va as [v|]; [| discriminate].
  destruct sp as [sp|]; [| discriminate].
  destruct ar as [a|]; [| discriminate].
  destruct (args_cli_config a) as [cli|]; [| discriminate].
  destruct (path p) as [d|] eqn:Hd; [| discriminate].
  destruct sh as [sh|]; [| discriminate].
  match goal with
  | |- context [add_library_paths C ?x ?i ?m] =>
      destruct (add_library_paths_run C x i m) as (l2 & s5 & -> & Hl2)
  end.
  mrun.
  match goal with
  | |- context [prepare_build_dir C ?x ?b ?m] =>
      rewrite (prepare_build_dir_run C x b m)
  end.
  mrun. intros [= <-]. mrun. exists p, d. repeat split. exact Hd.
Qed.

(** X13: In a run that returns with a resolved project, [root_dir] is the
    absolute path of the project's [path], taken in the process as the
    resolution left it (after a download, if there was one), and the shell
    is moved exactly once in the whole run, to [root_dir], between the
    publication of [root_dir] and that of [build_dir]. *)
Theorem shell_moves_once_to_root conf m m' :
  Env_init C conf m = (Ok tt, m') ->
  nothing_to_build C (self m') = false ->
  exists p d root build before after,
    (project (self m') = Some p /\ path p = Some d /\
     root_dir (self m') = Some root /\ build_dir (self m') = Some build) /\
    root = posixpath.abspath (getcwd (sys (snd (resolution C conf m)))) d /\
    calls m'
    = (calls m ++ before
       ++ [Project_publish_variable "root_dir" root; Shell_cd root;
           Project_publish_variable "build_dir" build]
       ++ after)%list /\
    forallb (fun c => negb (cd_call c)) (before ++ after) = true.
Proof.
  intros Hrun Hsome. rewrite Env_init_cases in Hrun.
  destruct (resolution C conf m) as [[[]|e] m0] eqn:Hres; [| discriminate].
  pose proof (resolution_frame C conf m) as Hframe.
  cbn zeta in Hframe. rewrite Hres in Hframe. cbn [snd] in Hframe.
  destruct Hframe as (_ & _ & l & Hcalls & Hl).
  destruct (nothing_to_build C (self m0)) eqn:Hnone.
  { injection Hrun as <-. congruence. }
  destruct (build_environment_root _ _ Hrun) as (p & d & Hp & Hd & Hroot).
  apply build_environment_ok in Hrun
    as (v & sp & cli & cfg & root & build & deps & install & sh & l2 & s6
        & (_ & Hr & Hb & _ & _) & (_ & Hkeep) & _ & _ & _ & _ & Hlog & Hl2).
  rewrite Hr in Hroot. injection Hroot as ->.
  eexists p, d, _, build,
    (l ++ [Project_use_variant v; Project_get_config sp cli])%list,
    ([Project_publish_variable "deps_dir" deps;
      Project_publish_variable "install_dir" install]
       ++ l2
       ++ (if bool_decide (build ∈ files s6) then [Shell_rm build] else [])
       ++ [Shell_mkdir build])%list.
  split; [repeat split; [congruence | exact Hd | exact Hr | exact Hb] |].
  split; [reflexivity |].
  split; [rewrite Hlog, Hcalls, <- !app_assoc; reflexivity |].
  rewrite !forallb_app. cbn [forallb cd_call negb andb].
  rewrite (forallb_weaken resolution_call _ l),
    (forallb_weaken addpathenv_call _ l2);
    [| intros []; (discriminate || reflexivity) | exact Hl2
     | intros []; (discriminate || reflexivity) | exact Hl].
  destruct (bool_decide _); reflexivity.
Qed.

(** X14: For a configuration that brings no [variables] of its own (a
    [Config] cannot), the store is the one line 29 made, and after a run
    that returns with a resolved project it holds four keys, [root_dir],
    [build_dir], [deps_dir] and [install_dir], and each maps to the
    attribute of the same name. *)
Theorem store_mirrors_directories conf m m' :
  Env_init C conf m = (Ok tt, m') ->
  nothing_to_build C (self m') = false ->
  dom (variables (self m'))
  = ({["root_dir"; "build_dir"; "deps_dir"; "install_dir"]} : gset string) /\
  variables (self m') !! "root_dir" = root_dir (self m') /\
  variables (self m') !! "build_dir" = build_dir (self m') /\
  variables (self m') !! "deps_dir" = deps_dir (self m') /\
  variables (self m') !! "install_dir" = install_dir (self m').
Proof.
  intros Hrun Hsome. rewrite Env_init_cases in Hrun.
  destruct (resolution C conf m) as [[[]|e] m0] eqn:Hres; [| discriminate].
  pose proof (resolution_frame C conf m) as Hframe.
  cbn zeta in Hframe. rewrite Hres in Hframe. cbn [snd] in Hframe.
  destruct Hframe as (Hself & _).
  assert (Hempty : variables (self m0) = ∅) by (rewrite Hself; reflexivity).
  destruct (nothing_to_build C (self m0)) eqn:Hnone.
  { injection Hrun as <-. congruence. }
  apply build_environment_ok in Hrun
    as (v & sp & cli & cfg & root & build & deps & install & sh & l2 & s6
        & (_ & Hr & Hb & Hd & Hi) & _ & Hvars & _).
  rewrite Hvars, Hempty, Hr, Hb, Hd, Hi.
  split; [| split; [| split; [| split]]].
  - rewrite !dom_insert_L, dom_empty_L. set_solver.
  - do 3 (rewrite lookup_insert_ne by discriminate). apply lookup_insert_eq.
  - do 2 (rewrite lookup_insert_ne by discriminate). apply lookup_insert_eq.
  - rewrite lookup_insert_ne by discriminate. apply lookup_insert_eq.
  - apply lookup_insert_eq.
Qed.

End Root.

Lemma shell_moves_once_to_root_witness :
  exists p d root build before after,
    (project (self Sample.built) = Some p /\ path p = Some d /\
     root_dir (self Sample.built) = Some root /\
     build_dir (self Sample.built) = Some build) /\
    root = posixpath.abspath
             (getcwd (sys (snd (resolution Sample.host
                                  (Some (Sample.request (PyStr "libs/foo")))
                                  (Sample.boot Sample.process))))) d /\
    calls Sample.built
    = (calls (Sample.boot Sample.process) ++ before
       ++ [Project_publish_variable "root_dir" root; Shell_cd root;
           Project_publish_variable "build_dir" build]
       ++ after)%list /\
    forallb (fun c => negb (cd_call c)) (before ++ after) = true.
Proof.
  apply (shell_moves_once_to_root Sample.host
           (Some (Sample.request (PyStr "libs/foo")))
           (Sample.boot Sample.process)).
  - vm_compute. reflexivity.
  - vm_compute. reflexivity.
Defined.

Lemma store_mirrors_directories_witness :
  dom (variables (self Sample.built))
  = ({["root_dir"; "build_dir"; "deps_dir"; "install_dir"]} : gset string) /\
  variables (self Sample.built) !! "root_dir" = root_dir (self Sample.built) /\
  variables (self Sample.built) !! "build_dir"
  = build_dir (self Sample.built) /\
  variables (self Sample.built) !! "deps_dir" = deps_dir (self Sample.built) /\
  variables (self Sample.built) !! "install_dir"
  = install_dir (self Sample.built).
Proof.
  apply (store_mirrors_directories Sample.host
           (Some (Sample.request (PyStr "libs/foo")))
           (Sample.boot Sample.process)).
  - vm_compute. reflexivity.
  - vm_compute. reflexivity.
Defined.

(** ** Overrides *)

Section Overrides.

Variable C : Collaborators.

(** X15: With a shell whose [cd] changes the working directory, and a
    publication hook that leaves it alone, the three directories are all
    taken relative to [root_dir]: a relative [build_dir], [deps_dir] or
    [install_dir] of the merged configuration lands under the source
    directory, and a missing [deps_dir] or [install_dir] follows the
    [build_dir] that was chosen, overridden or not. *)
Theorem directories_resolve_against_root conf m m' :
  (forall sh d s, getcwd (shell_cd C sh d s) = d) ->
  (forall var value s, getcwd (publish_variable C var value s) = getcwd s) ->
  Env_init C conf m = (Ok tt, m') ->
  nothing_to_build C (self m') = false ->
  exists cfg root build deps install,
    (config (self m') = Some cfg /\ root_dir (self m') = Some root /\
     build_dir (self m') = Some build /\ deps_dir (self m') = Some deps /\
     install_dir (self m') = Some install) /\
    ((forall b, cfg !! "build_dir" = Some b ->
        build = posixpath.abspath root b) /\
     (cfg !! "build_dir" = None ->
        build = posixpath.abspath root (posixpath.join root ["build"]))) /\
    ((forall d, cfg !! "deps_dir" = Some d ->
        deps = posixpath.abspath root d) /\
     (cfg !! "deps_dir" = None ->
        deps = posixpath.abspath root (posixpath.join build ["deps"]))) /\
    ((forall i, cfg !! "install_dir" = Some i ->
        install = posixpath.abspath root i) /\
     (cfg !! "install_dir" = None ->
        install = posixpath.abspath root (posixpath.join build ["install"]))).
Proof.
  intros Hcd Hpub Hrun Hsome. rewrite Env_init_cases in Hrun.
  destruct (resolution C conf m) as [[[]|e] m0] eqn:Hres; [| discriminate].
  destruct (nothing_to_build C (self m0)) eqn:Hnone.
  { injection Hrun as <-. congruence. }
  apply build_environment_ok in Hrun
    as (v & sp & cli & cfg & root & build & deps & install & sh & l2 & s6
        & Hattrs & _ & _ & Hpaths & _).
  cbn zeta in Hpaths. rewrite !Hpub, Hcd in Hpaths.
  destruct Hpaths as (Hb & Hd & Hi).
  exists cfg, root, build, deps, install.
  split; [exact Hattrs |].
  unfold config_get in Hb, Hd, Hi.
  split; [| split].
  - split; [intros b Hk | intros Hk]; rewrite Hk in Hb; exact Hb.
  - split; [intros d Hk | intros Hk]; rewrite Hk in Hd; exact Hd.
  - split; [intros i Hk | intros Hk]; rewrite Hk in Hi; exact Hi.
Qed.

End Overrides.

Lemma directories_resolve_against_root_witness :
  (build_dir (self (snd (Env_init Sample.host
                           (Some (Cases.overriding (PyStr "libs/foo")
                                    [("build_dir", "out")]))
                           (Sample.boot Sample.process))))
   = Some "/work/libs/foo/out" /\
   deps_dir (self (snd (Env_init Sample.host
                          (Some (Cases.overriding (PyStr "libs/foo")
                                   [("build_dir", "out")]))
                          (Sample.boot Sample.process))))
   = Some "/work/libs/foo/out/deps") /\
  exists cfg root build deps install,
    (config (self (snd (Env_init Sample.host
                          (Some (Cases.overriding (PyStr "libs/foo")
                                   [("build_dir", "out")]))
                          (Sample.boot Sample.process)))) = Some cfg /\
     root_dir (self (snd (Env_init Sample.host
                            (Some (Cases.overriding (PyStr "libs/foo")
                                     [("build_dir", "out")]))
                            (Sample.boot Sample.process)))) = Some root /\
     build_dir (self (snd (Env_init Sample.host
                             (Some (Cases.overriding (PyStr "libs/foo")
                                      [("build_dir", "out")]))
                             (Sample.boot Sample.process)))) = Some build /\
     deps_dir (self (snd (Env_init Sample.host
                            (Some (Cases.overriding (PyStr "libs/foo")
                                     [("build_dir", "out")]))
                            (Sample.boot Sample.process)))) = Some deps /\
     install_dir (self (snd (Env_init Sample.host
                               (Some (Cases.overriding (PyStr "libs/foo")
                                        [("build_dir", "out")]))
                               (Sample.boot Sample.process))))
     = Some install) /\
    ((forall b, cfg !! "build_dir" = Some b ->
        build = posixpath.abspath root b) /\
     (cfg !! "build_dir" = None ->
        build = posixpath.abspath root (posixpath.join root ["build"]))) /\
    ((forall d, cfg !! "deps_dir" = Some d ->
        deps = posixpath.abspath root d) /\
     (cfg !! "deps_dir" = None ->
        deps = posixpath.abspath root (posixpath.join build ["deps"]))) /\
    ((forall i, cfg !! "install_dir" = Some i ->
        install = posixpath.abspath root i) /\
     (cfg !! "install_dir" = None ->
        install = posixpath.abspath root (posixpath.join build ["install"]))).
Proof.
  split; [vm_compute; split; reflexivity |].
  apply (directories_resolve_against_root Sample.host
           (Some (Cases.overriding (PyStr "libs/foo") [("build_dir", "out")]))
           (Sample.boot Sample.process)).
  - intros sh d s. reflexivity.
  - intros var value s. reflexivity.
  - vm_compute. reflexivity.
  - vm_compute. reflexivity.
Defined.

(** ** Library paths *)

Lemma abspath_of_abs cwd path :
  posixpath.isabs path = true ->
  posixpath.abspath cwd path = posixpath.normpath path.
Proof. intros H. unfold posixpath.abspath. rewrite H. reflexivity. Qed.

Section LibraryPaths.

Variable C : Collaborators.

Lemma add_library_paths_calls sh install m :
  exists s' paths,
    add_library_paths C sh install m
    = (Ok tt,
       {| self := self m; sys := s'; search_dirs := search_dirs m;
          calls := calls m ++ paths |}) /\
    (platform (sys m) = "win32" -> windows_paths paths) /\
    (platform (sys m) <> "win32" -> posixpath.isabs install = true ->
     posix_paths install paths).
Proof.
  unfold add_library_paths. unfold_monad.
  destruct (String.eqb (platform (sys m)) "win32") eqn:Hp; cbn.
  - do 2 eexists. split; [reflexivity |]. split.
    + intros _. eexists. reflexivity.
    + intros Hne. apply String.eqb_eq in Hp. contradiction.
  - rewrite <- app_assoc. do 2 eexists. split; [reflexivity |]. split.
    + intros Hw. apply String.eqb_neq in Hp. contradiction.
    + intros _ Habs. unfold posix_paths.
      rewrite !(abspath_of_abs _ _ (join_isabs _ _ Habs)). reflexivity.
Qed.

(** X16: In a run that returns with a resolved project the shell is asked to
    extend a search-path variable in one place only, and which variable is
    decided by the platform of the process at that point, after
    [install_dir] is published.  On [win32] it is one call, on [PATH].
    Anywhere else it is two calls, both on [LD_LIBRARY_PATH] and none on
    [PATH]: [install_dir/lib64] first, [install_dir/lib] second. *)
Theorem library_paths_by_platform conf m m' :
  Env_init C conf m = (Ok tt, m') ->
  nothing_to_build C (self m') = false ->
  exists sh root build deps install paths before after,
    (shell (self m') = Some sh /\ root_dir (self m') = Some root /\
     build_dir (self m') = Some build /\ deps_dir (self m') = Some deps /\
     install_dir (self m') = Some install) /\
    calls m' = (calls m ++ before ++ paths ++ after)%list /\
    forallb (fun c => negb (addpathenv_call c)) (before ++ after) = true /\
    let s0 := sys (snd (resolution C conf m)) in
    let s :=
      publish_variable C "install_dir" install
        (publish_variable C "deps_dir" deps
           (publish_variable C "build_dir" build
              (shell_cd C sh root
                 (publish_variable C "root_dir" root s0)))) in
    (platform s = "win32" -> windows_paths paths) /\
    (platform s <> "win32" -> posixpath.isabs install = true ->
     posix_paths install paths).
Proof.
  intros Hrun Hsome. rewrite Env_init_cases in Hrun.
  destruct (resolution C conf m) as [[[]|e] m0] eqn:Hres; [| discriminate].
  pose proof (resolution_frame C conf m) as Hframe.
  cbn zeta in Hframe. rewrite Hres in Hframe. cbn [snd] in Hframe.
  destruct Hframe as (_ & _ & l & Hcalls & Hl).
  destruct (nothing_to_build C (self m0)) eqn:Hnone.
  { injection Hrun as <-. congruence. }
  clear Hsome Hnone Hres.
  destruct m0 as [[dr vs br sh ld pj ar va sp cf rd bd dd idr] s ds cs].
  cbn [calls snd sys] in *. revert Hrun. mrun.
  destruct pj as [p|]; [| discriminate].
  destruct va as [v|]; [| discriminate].
  destruct sp as [sp|]; [| discriminate].
  destruct ar as [a|]; [| discriminate].
  destruct (args_cli_config a) as [cli|]; [| discriminate].
  destruct (path p) as [d|]; [| discriminate].
  destruct sh as [sh|]; [| discriminate].
  match goal with
  | |- context [add_library_paths C sh ?i ?m] =>
      set (before_paths := m); set (install := i) in *
  end.
  destruct (add_library_paths_calls sh install before_paths)
    as (s5 & paths & -> & Hwin & Hposix).
  subst before_paths. cbn [sys] in Hwin, Hposix. mrun.
  match goal with
  | |- context [prepare_build_dir C ?x ?b ?m] =>
      rewrite (prepare_build_dir_run C x b m)
  end.
  mrun. intros [= <-]. mrun.
  eexists sh, _, _, _, install, paths,
    (l ++ [Project_use_variant v; Project_get_config sp cli;
           Project_publish_variable "root_dir" _; Shell_cd _;
           Project_publish_variable "build_dir" _;
           Project_publish_variable "deps_dir" _;
           Project_publish_variable "install_dir" install])%list,
    _.
  split; [repeat split |].
  split; [rewrite Hcalls, <- !app_assoc; reflexivity |].
  split.
  - rewrite !forallb_app. cbn [forallb addpathenv_call negb andb].
    rewrite (forallb_weaken resolution_call _ l);
      [| intros []; (discriminate || reflexivity) | exact Hl].
    destruct (bool_decide _); reflexivity.
  - cbn zeta. split; [exact Hwin | exact Hposix].
Qed.

End LibraryPaths.

Lemma library_paths_by_platform_witness :
  (exists paths before after,
     calls Cases.built_on_windows
     = (calls (Sample.boot Cases.windows) ++ before ++ paths ++ after)%list /\
     forallb (fun c => negb (addpathenv_call c)) (before ++ after) = true /\
     windows_paths paths) /\
  (exists paths before after,
     calls Sample.built
     = (calls (Sample.boot Sample.process) ++ before ++ paths ++ after)%list /\
     forallb (fun c => negb (addpathenv_call c)) (before ++ after) = true /\
     posix_paths "/work/libs/foo/build/install" paths).
Proof.
  split.
  - destruct (library_paths_by_platform Sample.host
                (Some (Sample.request (PyStr "libs/foo")))
                (Sample.boot Cases.windows) Cases.built_on_windows)
      as (sh & root & build & deps & install & paths & before & after
          & _ & Hcalls & Hrest & Hwin & _);
      [vm_compute; reflexivity | vm_compute; reflexivity |].
    exists paths, before, after.
    split; [exact Hcalls | split; [exact Hrest |]].
    apply Hwin. vm_compute. reflexivity.
  - destruct (library_paths_by_platform Sample.host
                (Some (Sample.request (PyStr "libs/foo")))
                (Sample.boot Sample.process) Sample.built)
      as (sh & root & build & deps & install & paths & before & after
          & (_ & _ & _ & _ & Hinstall) & Hcalls & Hrest & _ & Hposix);
      [vm_compute; reflexivity | vm_compute; reflexivity |].
    assert (install = "/work/libs/foo/build/install") as ->
      by (vm_compute in Hinstall; congruence).
    exists paths, before, after.
    split; [exact Hcalls | split; [exact Hrest |]].
    apply Hposix; [intros Hp; vm_compute in Hp; discriminate | reflexivity].
Defined.
